(** * safer-mcp-atlassian: worklog durations, comment visibility, page errors

    A shallow embedding of the Jira and Confluence mixins
    ([jira/worklog.py], [jira/comments.py], [confluence/pages.py]) and of the
    Python builtins they call, followed by the properties of the
    specification that were checked against it.

    Conventions of the embedding.
    - A Python [str] is a [string]; a character is a code point below 256
      (the Latin-1 part of Unicode), on which [int], [float], [str.lower]
      and the [re] class [\d] are modelled exactly.
    - A call that may raise returns a [result]: [Ret v] or [Raise e].
    - JSON payloads and other Python values are terms of [json]; a Python
      [dict] is a [gmap] from [string] keys.
    - Collaborators whose code is outside the three files (the REST client,
      the text preprocessor, [_clean_text], [parse_date], the page model
      constructor) are parameters of the operations. *)

From Stdlib Require Import ZArith List String Ascii Bool Lia.
From stdpp Require Import base option gmap strings.
Import ListNotations.

Local Open Scope string_scope.
Local Open Scope Z_scope.

(** ** Exceptions and results *)

(** The exception classes that occur.  All of them derive from Python's
    [Exception]; [HTTPError] derives from [RequestException]. *)
Inductive exn : Type :=
  | ValueError
  | OverflowError
  | KeyError
  | TypeError
  | AttributeError
  | HTTPError (status_code : option Z)   (* [response] may be [None] *)
  | RequestException
  | MCPAtlassianAuthenticationError (cause : exn)
  | Exception (cause : exn)              (* [raise Exception(...) from e] *)
  | OtherError (name : string).

Inductive result (A : Type) : Type :=
  | Ret (v : A)
  | Raise (e : exn).
Arguments Ret {A} v.
Arguments Raise {A} e.

#[global] Instance result_ret : MRet result := @Ret.
#[global] Instance result_bind : MBind result :=
  fun A B f r => match r with Ret v => f v | Raise e => Raise e end.

(** [try: body except handler] where the body's outcome is [r]. *)
Definition try_except {A} (r : result A) (handler : exn -> result A) : result A :=
  match r with
  | Ret v => Ret v
  | Raise e => handler e
  end.

(** [for x in xs: ys.append(f(x))], stopping at the first exception. *)
Fixpoint for_each {A B} (f : A -> result B) (xs : list A) : result (list B) :=
  match xs with
  | [] => Ret []
  | x :: xs' => y ← f x; ys ← for_each f xs'; Ret (y :: ys)
  end.

(** ** Python builtins on strings *)

Module Py.

Definition chars (s : string) : list ascii := list_ascii_of_string s.
Definition code (c : ascii) : Z := Z.of_N (N_of_ascii c).

(** [Py_ISSPACE]: the ASCII white space. *)
Definition is_ascii_space (c : ascii) : bool :=
  ((9 <=? code c) && (code c <=? 13)) || (code c =? 32).

(** [Py_UNICODE_ISSPACE] above U+007F, within Latin-1: NEL and NBSP. *)
Definition is_unicode_space (c : ascii) : bool :=
  (code c =? 133) || (code c =? 160).

(** Unicode decimal digits (category Nd); below U+0100 these are 0-9. *)
Definition is_digit (c : ascii) : bool :=
  (48 <=? code c) && (code c <=? 57).

Definition digit_value (c : ascii) : Z := code c - 48.

(** Value of a digit string, most significant digit first. *)
Definition digits_value (ds : list ascii) : Z :=
  fold_left (fun acc c => 10 * acc + digit_value c) ds 0.

(** [_PyUnicode_TransformDecimalAndSpaceToASCII]: ASCII is kept, other
    white space becomes a blank, and the first character that is neither
    becomes ['?'] and ends the buffer. *)
Fixpoint transform_decimal_and_space (s : list ascii) : list ascii :=
  match s with
  | [] => []
  | c :: s' =>
      if code c <? 128 then c :: transform_decimal_and_space s'
      else if is_unicode_space c then " "%char :: transform_decimal_and_space s'
      else ["?"%char]
  end.

Fixpoint drop_while (p : ascii -> bool) (s : list ascii) : list ascii :=
  match s with
  | c :: s' => if p c then drop_while p s' else s
  | [] => []
  end.

Fixpoint take_while (p : ascii -> bool) (s : list ascii) : list ascii :=
  match s with
  | c :: s' => if p c then c :: take_while p s' else []
  | [] => []
  end.

Definition is_underscore (c : ascii) : bool := Ascii.eqb c "_".

(** The digit scan of [PyLong_FromString] in base 10: digits and single
    underscores between them.  Returns the digits and the unread rest, or
    [None] on a doubled or trailing underscore. *)
Fixpoint scan_int_digits (prev : ascii) (s : list ascii)
  : option (list ascii * list ascii) :=
  match s with
  | c :: s' =>
      if is_digit c then
        match scan_int_digits c s' with
        | Some (ds, rest) => Some (c :: ds, rest)
        | None => None
        end
      else if is_underscore c then
        if is_underscore prev then None else scan_int_digits c s'
      else if is_underscore prev then None else Some ([], s)
  | [] => if is_underscore prev then None else Some ([], [])
  end.

(** [sys.int_info.default_max_str_digits]: longer decimal strings are
    refused by [int] with a [ValueError]. *)
Definition int_max_str_digits : nat := 4300.

Definition split_sign (s : list ascii) : bool * list ascii :=
  match s with
  | c :: s' =>
      if Ascii.eqb c "-" then (true, s')
      else if Ascii.eqb c "+" then (false, s')
      else (false, s)
  | [] => (false, [])
  end.

Definition apply_sign (neg : bool) (v : Z) : Z := if neg then - v else v.

(** [int(s)] for a [str] argument. *)
Definition int (s : string) : result Z :=
  let buf := transform_decimal_and_space (chars s) in
  let '(neg, body) := split_sign (drop_while is_ascii_space buf) in
  match body with
  | c :: _ =>
      if is_underscore c then Raise ValueError
      else
        match scan_int_digits "000"%char body with
        | None => Raise ValueError
        | Some (ds, rest) =>
            if (int_max_str_digits <? List.length ds)%nat then Raise ValueError
            else
              match ds, drop_while is_ascii_space rest with
              | _ :: _, [] => Ret (apply_sign neg (digits_value ds))
              | _, _ => Raise ValueError
              end
        end
  | [] => Raise ValueError
  end.

(** *** [float(s)] and [int(x)] for a float [x] *)

(** An IEEE binary64 value: [Finite neg m e] is [(-1)^neg * m * 2^e]. *)
Inductive double : Type :=
  | Nan
  | Inf (neg : bool)
  | Finite (neg : bool) (m e : Z).

(** [_Py_string_to_number_with_underscores]: an underscore is dropped when
    it stands between two digits and is an error anywhere else. *)
Fixpoint strip_underscores (prev : ascii) (s : list ascii) : option (list ascii) :=
  match s with
  | [] => if is_underscore prev then None else Some []
  | c :: s' =>
      if is_underscore c then
        if is_digit prev then strip_underscores c s' else None
      else if is_underscore prev && negb (is_digit c) then None
      else
        match strip_underscores c s' with
        | Some r => Some (c :: r)
        | None => None
        end
  end.

(** [Py_TOLOWER]: ASCII only. *)
Definition ascii_tolower (c : ascii) : ascii :=
  if (65 <=? code c) && (code c <=? 90)
  then ascii_of_N (N_of_ascii c + 32) else c.

(** [case_insensitive_match]: the rest of [s] after the lower-case word
    [t], if [s] starts with it in any case. *)
Fixpoint case_insensitive_match (s t : list ascii) : option (list ascii) :=
  match t with
  | [] => Some s
  | ct :: t' =>
      match s with
      | cs :: s' =>
          if Ascii.eqb (ascii_tolower cs) ct then case_insensitive_match s' t'
          else None
      | [] => None
      end
  end.

(** [_Py_parse_inf_or_nan], after the sign: the value and the unread rest. *)
Definition parse_inf_or_nan (neg : bool) (s : list ascii)
  : option (double * list ascii) :=
  match case_insensitive_match s (chars "inf") with
  | Some rest =>
      match case_insensitive_match rest (chars "inity") with
      | Some rest' => Some (Inf neg, rest')
      | None => Some (Inf neg, rest)
      end
  | None =>
      match case_insensitive_match s (chars "nan") with
      | Some rest => Some (Nan, rest)
      | None => None
      end
  end.

(** [n / d] rounded to the nearest integer, ties to even ([0 <= n], [0 < d]). *)
Definition round_half_even (n d : Z) : Z :=
  let q := n / d in
  match 2 * (n mod d) ?= d with
  | Lt => q
  | Gt => q + 1
  | Eq => if Z.even q then q else q + 1
  end.

(** The binary64 nearest to [n / d] ([0 <= n], [0 < d]), as
    correctly-rounding [strtod] computes it: 53 bits of mantissa, exponents
    from [-1074] (subnormal) and overflow to infinity. *)
Definition binary64_of_ratio (neg : bool) (n d : Z) : double :=
  if n =? 0 then Finite neg 0 0
  else
    let k := Z.log2 n - Z.log2 d in
    let lg := if n * 2 ^ Z.max 0 (- k) <? d * 2 ^ Z.max 0 k then k - 1 else k in
    let e := Z.max (lg - 52) (-1074) in
    let m := round_half_even (n * 2 ^ Z.max 0 (- e)) (d * 2 ^ Z.max 0 e) in
    let '(m, e) := if m =? 2 ^ 53 then (2 ^ 52, e + 1) else (m, e) in
    if 971 <? e then Inf neg else Finite neg m e.

(** The decimal literal [digits [. digits] [(e|E) [sign] digits]] of
    [strtod], after the sign: the value and the unread rest. *)
Definition parse_decimal (neg : bool) (s : list ascii)
  : option (double * list ascii) :=
  let ip := take_while is_digit s in
  let s1 := drop_while is_digit s in
  let '(fp, s2) :=
    match s1 with
    | c :: s1' =>
        if Ascii.eqb c "."
        then (take_while is_digit s1', drop_while is_digit s1')
        else ([], s1)
    | [] => ([], s1)
    end in
  match (ip ++ fp)%list with
  | [] => None
  | _ :: _ =>
      let '(ex, s3) :=
        match s2 with
        | c :: s2' =>
            if Ascii.eqb (ascii_tolower c) "e" then
              let '(eneg, s2'') := split_sign s2' in
              match take_while is_digit s2'' with
              | [] => (0, s2)
              | ed => (apply_sign eneg (digits_value ed), drop_while is_digit s2'')
              end
            else (0, s2)
        | [] => (0, s2)
        end in
      let e10 := ex - Z.of_nat (List.length fp) in
      let mant := digits_value (ip ++ fp)%list in
      Some (if 0 <=? e10
            then binary64_of_ratio neg (mant * 10 ^ e10) 1
            else binary64_of_ratio neg mant (10 ^ (- e10)), s3)
  end.

(** [float(s)] for a [str] argument. *)
Definition float (s : string) : result double :=
  match strip_underscores "000"%char (transform_decimal_and_space (chars s)) with
  | None => Raise ValueError
  | Some buf =>
      let body := rev (drop_while is_ascii_space
                         (rev (drop_while is_ascii_space buf))) in
      let '(neg, num) := split_sign body in
      let parsed :=
        match parse_inf_or_nan neg num with
        | Some r => Some r
        | None => parse_decimal neg num
        end in
      match parsed with
      | Some (x, []) => Ret x
      | _ => Raise ValueError
      end
  end.

(** [int(x)] for a float [x]: truncation toward zero. *)
Definition int_of_float (x : double) : result Z :=
  match x with
  | Nan => Raise ValueError
  | Inf _ => Raise OverflowError
  | Finite neg m e =>
      Ret (apply_sign neg (if 0 <=? e then m * 2 ^ e else m / 2 ^ (- e)))
  end.

(** *** [str] methods *)

(** [str.lower] on one code point below U+0100. *)
Definition lower_char (c : ascii) : ascii :=
  if ((65 <=? code c) && (code c <=? 90))
     || ((192 <=? code c) && (code c <=? 222) && negb (code c =? 215))
  then ascii_of_N (N_of_ascii c + 32) else c.

Fixpoint lower (s : string) : string :=
  match s with
  | EmptyString => EmptyString
  | String c s' => String (lower_char c) (lower s')
  end.

(** [s.endswith("s")]. *)
Definition endswith_s (s : string) : bool :=
  match rev (chars s) with
  | c :: _ => Ascii.eqb c "s"
  | [] => false
  end.

(** [s[:-1]]. *)
Definition drop_last (s : string) : string :=
  string_of_list_ascii (removelast (chars s)).

End Py.

(** ** The [re] module, for the pattern of the duration parser *)

Module Re.
Import Py.

(** The character class [[wdhm]]. *)
Definition is_unit (c : ascii) : bool :=
  Ascii.eqb c "w" || Ascii.eqb c "d" || Ascii.eqb c "h" || Ascii.eqb c "m".

(** Backtracking of the greedy [\d+]: with [n] digits taken, the next
    character must be in [[wdhm]], otherwise one digit is given back. *)
Fixpoint try_lengths (n : nat) (s : list ascii) : option (list ascii * ascii) :=
  match n with
  | O => None
  | S n' =>
      match nth_error s n with
      | Some u => if is_unit u then Some (firstn n s, u) else try_lengths n' s
      | None => try_lengths n' s
      end
  end.

(** A match of [(\d+)([wdhm])] starting at the head of [s]: the two groups. *)
Definition match_here (s : list ascii) : option (list ascii * ascii) :=
  try_lengths (List.length (take_while is_digit s)) s.

(** The scan of [re.findall]: a match is looked for at each position from
    left to right, and the search resumes after the end of a match.
    [skip] counts the characters of the last match still to be passed. *)
Fixpoint findall_from (skip : nat) (s : list ascii) : list (string * string) :=
  match s with
  | [] => []
  | _ :: s' =>
      match skip with
      | S k => findall_from k s'
      | O =>
          match match_here s with
          | Some (value, unit) =>
              (string_of_list_ascii value, String unit EmptyString)
                :: findall_from (List.length value) s'
          | None => findall_from 0 s'
          end
      end
  end.

(** [re.findall(r"(\d+)([wdhm])", s)]. *)
Definition findall (s : string) : list (string * string) :=
  findall_from 0 (chars s).

(** The same scan as one left-to-right pass that carries the digits read
    since the last match or non-digit; shown below to agree with
    [findall_from]. *)
Fixpoint scan (pending : list ascii) (s : list ascii) : list (string * string) :=
  match s with
  | [] => []
  | c :: s' =>
      if is_digit c then scan (pending ++ [c]) s'
      else
        match pending with
        | _ :: _ =>
            if is_unit c
            then (string_of_list_ascii pending, String c EmptyString) :: scan [] s'
            else scan [] s'
        | [] => scan [] s'
        end
  end.

(** The shape of a match: a non-empty digit string and a unit letter. *)
Definition well_formed_match (m : string * string) : Prop :=
  exists ds u, m = (string_of_list_ascii ds, String u EmptyString)
               /\ ds <> [] /\ forallb is_digit ds = true /\ is_unit u = true.

End Re.

(** ** Python values exchanged with the REST clients *)

#[local] Set Warnings "-register-all".

(** Parsed JSON, which is also what the operations hand back: [JNull] is
    [None], a [JDict] is a [dict] with [str] keys. *)
Inductive json : Type :=
  | JNull
  | JBool (b : bool)
  | JNum (n : Z)
  | JStr (s : string)
  | JList (l : list json)
  | JDict (m : gmap string json).

Module Value.

(** [isinstance(v, dict)]. *)
Definition is_dict (v : json) : bool :=
  match v with JDict _ => true | _ => false end.

(** [v.get(key, default)]; only a [dict] has the method. *)
Definition get (v : json) (key : string) (default : json) : result json :=
  match v with
  | JDict m => Ret (match m !! key with Some x => x | None => default end)
  | _ => Raise AttributeError
  end.

(** [v[key]] for a [str] key. *)
Definition getitem (v : json) (key : string) : result json :=
  match v with
  | JDict m => match m !! key with Some x => Ret x | None => Raise KeyError end
  | _ => Raise TypeError
  end.

(** [v[0]]. *)
Definition getitem0 (v : json) : result json :=
  match v with
  | JList (x :: _) => Ret x
  | JList [] => Raise (OtherError "IndexError")
  | JStr (String c _) => Ret (JStr (String c EmptyString))
  | JStr EmptyString => Raise (OtherError "IndexError")
  | JDict _ => Raise KeyError
  | _ => Raise TypeError
  end.

(** Truth value of [v] in a condition. *)
Definition truthy (v : json) : bool :=
  match v with
  | JNull => false
  | JBool b => b
  | JNum n => negb (n =? 0)
  | JStr s => negb (String.eqb s "")
  | JList l => match l with [] => false | _ => true end
  | JDict m => negb (bool_decide (m = ∅))
  end.

(** [v == s] for a [str] [s]. *)
Definition eq_str (v : json) (s : string) : bool :=
  match v with JStr t => String.eqb t s | _ => false end.

Definition str_chars (s : string) : list json :=
  map (fun c => JStr (String c EmptyString)) (list_ascii_of_string s).

(** [key in v] for a [str] [key]. *)
Definition contains (v : json) (key : string) : result bool :=
  match v with
  | JDict m => Ret (bool_decide (is_Some (m !! key)))
  | JList l => Ret (existsb (fun x => eq_str x key) l)
  | JStr s => Ret (match String.index 0 key s with Some _ => true | None => false end)
  | _ => Raise TypeError
  end.

(** The items a [for] loop over [v] visits: the elements of a list, the
    characters of a string, the keys of a dict. *)
Definition iterate (v : json) : result (list json) :=
  match v with
  | JList l => Ret l
  | JStr s => Ret (str_chars s)
  | JDict m => Ret (map (fun kv => JStr (fst kv)) (map_to_list m))
  | _ => Raise TypeError
  end.

(** [l[:limit]] on a sequence of [n] items keeps the first [limit] of
    them, or all but the last [-limit] when [limit] is negative. *)
Definition slice_to {A} (l : list A) (limit : Z) : list A :=
  if 0 <=? limit then firstn (Z.to_nat limit) l
  else firstn (Z.to_nat (Z.of_nat (List.length l) + limit)) l.

(** The items of [v[:limit]]; a [dict] cannot be sliced. *)
Definition slice_items (v : json) (limit : Z) : result (list json) :=
  match v with
  | JList l => Ret (slice_to l limit)
  | JStr s => Ret (slice_to (str_chars s) limit)
  | _ => Raise TypeError
  end.

End Value.

(** ** The Jira REST client *)

(** One request made on [self.jira]. *)
Inductive jira_call : Type :=
  | Call_issue_get_comments (issue_key : string)
  | Call_issue_get_worklog (issue_key : string)
  | Call_issue_add_comment (issue_key : string) (comment : string)
  | Call_post (url : string) (json_body : json).

(** The client ([atlassian.Jira]): each request answers with a value or
    raises; [resource_url] only builds a URL string and sends nothing. *)
Record jira_client : Type := {
  issue_get_comments : string -> result json;
  issue_get_worklog : string -> result json;
  issue_add_comment : string -> string -> result json;
  resource_url : string -> string;
  post : string -> json -> result json
}.

(** A computation that talks to the client: the requests it made, in
    order, and its outcome. *)
Definition io (A : Type) : Type := list jira_call * result A.

#[global] Instance io_ret : MRet io := fun A v => ([], Ret v).
#[global] Instance io_bind : MBind io :=
  fun A B f x =>
    match x with
    | (calls, Ret v) => let '(calls', r) := f v in ((calls ++ calls')%list, r)
    | (calls, Raise e) => (calls, Raise e)
    end.

(** A request: it is recorded and the client's answer is its outcome. *)
Definition request {A} (c : jira_call) (answer : result A) : io A := ([c], answer).
Definition lift {A} (r : result A) : io A := ([], r).

(** [try: body except Exception as e: raise Exception(...) from e]. *)
Definition reraise_wrapped {A} (x : io A) : io A :=
  (fst x, try_except (snd x) (fun e => Raise (Exception e))).

(** ** [jira/worklog.py]: the duration parser *)

Module Worklog.

(** The [time_units] dictionary. *)
Definition time_units : gmap string Z :=
  {[ "w" := 7 * 24 * 60 * 60;
     "d" := 24 * 60 * 60;
     "h" := 60 * 60;
     "m" := 60 ]}.

(** [time_units[unit]]. *)
Definition time_units_get (unit : string) : result Z :=
  match time_units !! unit with
  | Some v => Ret v
  | None => Raise KeyError
  end.

(** The [for value, unit in matches] loop on [total_seconds]. *)
Fixpoint add_matches (matches : list (string * string)) (total_seconds : Z)
  : result Z :=
  match matches with
  | [] => Ret total_seconds
  | (value, unit) :: matches' =>
      v ← Py.int value;
      u ← time_units_get unit;
      let seconds := v * u in
      add_matches matches' (total_seconds + seconds)
  end.

(** [total_seconds] when the loop over the matches of [time_spent] ends. *)
Definition total_seconds_after_loop (time_spent : string) : result Z :=
  add_matches (Re.findall time_spent) 0.

(** The last [try] of [_parse_time_spent]: [int(float(time_spent))], and
    60 (after a warning in the log) on a [ValueError]. *)
Definition numeric_fallback (time_spent : string) : result Z :=
  try_except (x ← Py.float time_spent; Py.int_of_float x)
    (fun e => match e with
              | ValueError => Ret 60
              | _ => Raise e
              end).

(** [WorklogMixin._parse_time_spent]. *)
Definition _parse_time_spent (time_spent : string) : result Z :=
  let direct :=
    if Py.endswith_s time_spent then
      match Py.int (Py.drop_last time_spent) with
      | Ret v => Some (Ret v)
      | Raise ValueError => None          (* except ValueError: pass *)
      | Raise e => Some (Raise e)
      end
    else None in
  match direct with
  | Some r => r
  | None =>
      total_seconds ← total_seconds_after_loop time_spent;
      if total_seconds =? 0 then numeric_fallback time_spent
      else Ret total_seconds
  end.

(** *** [get_worklogs] *)

Section Mapping.
(** [JiraClient._clean_text], [utils.parse_date] and [str] on what the
    latter returns. *)
Context {date : Type}.
Variable _clean_text : json -> result json.
Variable parse_date : json -> result date.
Variable str : date -> string.

(** [str(parse_date(v))]. *)
Definition str_parse_date (v : json) : result json :=
  d ← parse_date v; Ret (JStr (str d)).

(** The dictionary built for one entry of ["worklogs"]. *)
Definition worklog_entry (worklog : json) : result (gmap string json) :=
  id ← Value.get worklog "id" JNull;
  comment ← Value.get worklog "comment" (JStr "") ≫= _clean_text;
  created ← Value.get worklog "created" (JStr "") ≫= str_parse_date;
  updated ← Value.get worklog "updated" (JStr "") ≫= str_parse_date;
  started ← Value.get worklog "started" (JStr "") ≫= str_parse_date;
  timeSpent ← Value.get worklog "timeSpent" (JStr "");
  timeSpentSeconds ← Value.get worklog "timeSpentSeconds" (JNum 0);
  author ← Value.get worklog "author" (JDict ∅);
  author ← Value.get author "displayName" (JStr "Unknown");
  Ret ({[ "id" := id; "comment" := comment; "created" := created;
          "updated" := updated; "started" := started;
          "timeSpent" := timeSpent;
          "timeSpentSeconds" := timeSpentSeconds;
          "author" := author ]} : gmap string json).

(** [WorklogMixin.get_worklogs]. *)
Definition get_worklogs (jira : jira_client) (issue_key : string)
  : io (list (gmap string json)) :=
  reraise_wrapped (
    response ← request (Call_issue_get_worklog issue_key)
                       (issue_get_worklog jira issue_key);
    lift (
      if negb (Value.is_dict response) then Raise TypeError
      else
        entries ← Value.get response "worklogs" (JList []) ≫= Value.iterate;
        for_each worklog_entry entries)).

End Mapping.

End Worklog.

(** ** [jira/comments.py] *)

Module Comments.

Section Mixin.
Context {date : Type}.
Variable _clean_text : json -> result json.
Variable parse_date : json -> result date.
Variable str : date -> string.
(** [self.preprocessor.markdown_to_jira]. *)
Variable markdown_to_jira : string -> result string.
(** [self.config.force_internal_comments]. *)
Variable force_internal_comments : bool.

Definition str_parse_date (v : json) : result json :=
  d ← parse_date v; Ret (JStr (str d)).

(** The dictionary built for one comment. *)
Definition processed_comment (comment : json) : result (gmap string json) :=
  id ← Value.get comment "id" JNull;
  body ← Value.get comment "body" (JStr "") ≫= _clean_text;
  created ← Value.get comment "created" JNull ≫= str_parse_date;
  updated ← Value.get comment "updated" JNull ≫= str_parse_date;
  author ← Value.get comment "author" (JDict ∅);
  author ← Value.get author "displayName" (JStr "Unknown");
  Ret ({[ "id" := id; "body" := body; "created" := created;
          "updated" := updated; "author" := author ]} : gmap string json).

(** [CommentsMixin.get_issue_comments]. *)
Definition get_issue_comments (jira : jira_client) (issue_key : string)
    (limit : Z) : io (list (gmap string json)) :=
  reraise_wrapped (
    comments ← request (Call_issue_get_comments issue_key)
                       (issue_get_comments jira issue_key);
    lift (
      if negb (Value.is_dict comments) then Raise TypeError
      else
        items ← Value.get comments "comments" (JList []);
        items ← Value.slice_items items limit;
        for_each processed_comment items)).

(** [CommentsMixin._markdown_to_jira]. *)
Definition _markdown_to_jira (markdown_text : string) : string :=
  if String.eqb markdown_text "" then ""
  else
    match markdown_to_jira markdown_text with
    | Ret t => t
    | Raise _ => markdown_text
    end.

(** The [should_be_internal] decision of [add_comment]. *)
Definition should_be_internal (visibility : option string) : bool :=
  if force_internal_comments then true
  else
    match visibility with
    | None => false
    | Some v =>
        if String.eqb (Py.lower v) "internal" then true
        else if String.eqb (Py.lower v) "public" then false
        else true
    end.

(** The request body of an internal comment. *)
Definition comment_data (jira_formatted_comment : string) : json :=
  JDict {[ "body" := JStr jira_formatted_comment;
           "properties" :=
             JList [ JDict {[ "key" := JStr "sd.public.comment";
                              "value" := JDict {[ "internal" := JBool true ]} ]} ] ]}.

(** The dictionary [add_comment] returns for the client's answer. *)
Definition created_comment (response : json) : result (gmap string json) :=
  if negb (Value.is_dict response) then Raise TypeError
  else
    id ← Value.get response "id" JNull;
    body ← Value.get response "body" (JStr "") ≫= _clean_text;
    created ← Value.get response "created" JNull ≫= str_parse_date;
    author ← Value.get response "author" (JDict ∅);
    author ← Value.get author "displayName" (JStr "Unknown");
    Ret ({[ "id" := id; "body" := body; "created" := created;
            "author" := author ]} : gmap string json).

(** [CommentsMixin.add_comment]. *)
Definition add_comment (jira : jira_client) (issue_key comment : string)
    (visibility : option string) : io (gmap string json) :=
  reraise_wrapped (
    let jira_formatted_comment := _markdown_to_jira comment in
    response ←
      (if should_be_internal visibility then
         let comment_data := comment_data jira_formatted_comment in
         let base_url := resource_url jira "issue" in
         let url := base_url ++ "/" ++ issue_key ++ "/comment" in
         request (Call_post url comment_data) (post jira url comment_data)
       else
         request (Call_issue_add_comment issue_key jira_formatted_comment)
                 (issue_add_comment jira issue_key jira_formatted_comment));
    lift (created_comment response)).

End Mixin.

End Comments.

(** ** [confluence/pages.py] *)

Module Pages.

(** The methods of [self.confluence] that the page operations call. *)
Record confluence_client : Type := {
  get_page_by_id : json -> string -> result json;
  client_get_page_ancestors : json -> result json;
  get_all_spaces : Z -> Z -> result json;
  client_get_page_by_title : string -> string -> string -> result json;
  get_all_pages_from_space : string -> Z -> Z -> string -> result json;
  client_create_page : string -> string -> string -> option string -> string -> result json;
  client_update_page :
    json -> string -> string -> bool -> string -> option string -> result json;
  get_page_child_by_type : json -> string -> Z -> Z -> string -> result json
}.

(** The keyword arguments of [ConfluencePage.from_api_response]. *)
Record model_kwargs : Type := {
  base_url : string;
  include_body : bool;
  content_override : option json;
  content_format : option string;
  is_cloud : option bool
}.

Section Mixin.
(** [ConfluencePage] and its constructor, the preprocessor, the
    configuration and the client. *)
Context {ConfluencePage : Type}.
Variable from_api_response : json -> model_kwargs -> result ConfluencePage.
Variable process_html_content : json -> json -> result (json * json).
Variable markdown_to_confluence_storage : string -> result string.
Variable config_url : string.
Variable config_is_cloud : bool.
Variable confluence : confluence_client.

(** The [except HTTPError as http_err] clause shared by
    [get_page_content] and [get_page_ancestors]. *)
Definition on_http_error {A} (status_code : option Z) : result A :=
  match status_code with
  | Some code =>
      if (code =? 401) || (code =? 403)
      then Raise (MCPAtlassianAuthenticationError (HTTPError status_code))
      else Raise (HTTPError status_code)
  | None => Raise (HTTPError status_code)
  end.

(** [page["body"]["storage"]["value"]]. *)
Definition storage_value (page : json) : result json :=
  body ← Value.getitem page "body";
  storage ← Value.getitem body "storage";
  Value.getitem storage "value".

Definition format_of (convert_to_markdown : bool) : string :=
  if negb convert_to_markdown then "storage" else "markdown".

(** [PagesMixin.get_page_content]. *)
Definition get_page_content (page_id : json) (convert_to_markdown : bool)
  : result ConfluencePage :=
  try_except (
    page ← get_page_by_id confluence page_id
             "body.storage,version,space,children.attachment";
    space ← Value.get page "space" (JDict ∅);
    space_key ← Value.get space "key" (JStr "");
    content ← storage_value page;
    '(processed_html, processed_markdown) ← process_html_content content space_key;
    let page_content :=
      if convert_to_markdown then processed_markdown else processed_html in
    from_api_response page
      {| base_url := config_url; include_body := true;
         content_override := Some page_content;
         content_format := Some (format_of convert_to_markdown);
         is_cloud := Some config_is_cloud |})
  (fun e =>
     match e with
     | HTTPError status_code => on_http_error status_code
     | _ => Raise (Exception e)
     end).

(** [PagesMixin.get_page_ancestors]. *)
Definition get_page_ancestors (page_id : json) : result (list ConfluencePage) :=
  try_except (
    ancestors ← client_get_page_ancestors confluence page_id ≫= Value.iterate;
    for_each (fun ancestor =>
      from_api_response ancestor
        {| base_url := config_url; include_body := false;
           content_override := None; content_format := None;
           is_cloud := None |}) ancestors)
  (fun e =>
     match e with
     | HTTPError status_code => on_http_error status_code
     | _ => Ret []
     end).

(** The guarded test [isinstance(v, dict) and "results" in v]. *)
Definition has_results (v : json) : result bool :=
  if Value.is_dict v then Value.contains v "results" else Ret false.

(** [PagesMixin.get_page_by_title]. *)
Definition get_page_by_title (space_key title : string)
    (convert_to_markdown : bool) : result (option ConfluencePage) :=
  try_except (
    spaces ← get_all_spaces confluence 0 500;
    paged ← has_results spaces;
    space_list ←
      (if paged : bool then Value.getitem spaces "results" ≫= Value.iterate
       else Value.iterate spaces);
    space_keys ← for_each (fun s => Value.getitem s "key") space_list;
    if negb (existsb (fun k => Value.eq_str k space_key) space_keys)
    then Ret None
    else
      page ← client_get_page_by_title confluence space_key title
               "body.storage,version";
      if negb (Value.truthy page) then Ret None
      else
        content ← storage_value page;
        '(processed_html, processed_markdown) ←
           process_html_content content (JStr space_key);
        let page_content :=
          if convert_to_markdown then processed_markdown else processed_html in
        model ← from_api_response page
          {| base_url := config_url; include_body := true;
             content_override := Some page_content;
             content_format := Some (format_of convert_to_markdown);
             is_cloud := Some config_is_cloud |};
        Ret (Some model))
  (fun e =>
     match e with
     | KeyError => Ret None
     | RequestException | HTTPError _ => Ret None
     | ValueError | TypeError => Ret None
     | _ => Ret None
     end).

(** The page with a ["space"] entry added when it has none. *)
Definition with_space (page : json) (space_key : string) : result json :=
  has_space ← Value.contains page "space";
  if has_space : bool then Ret page
  else
    match page with
    | JDict m =>
        Ret (JDict (<[ "space" := JDict {[ "key" := JStr space_key;
                                           "name" := JStr space_key ]} ]> m))
    | _ => Raise TypeError
    end.

(** [PagesMixin.get_space_pages]; it has no handler of its own. *)
Definition get_space_pages (space_key : string) (start limit : Z)
    (convert_to_markdown : bool) : result (list ConfluencePage) :=
  pages ← get_all_pages_from_space confluence space_key start limit
            "body.storage" ≫= Value.iterate;
  for_each (fun page =>
    content ← storage_value page;
    '(processed_html, processed_markdown) ←
       process_html_content content (JStr space_key);
    let page_content :=
      if convert_to_markdown then processed_markdown else processed_html in
    page ← with_space page space_key;
    from_api_response page
      {| base_url := config_url; include_body := true;
         content_override := Some page_content;
         content_format := Some (format_of convert_to_markdown);
         is_cloud := Some config_is_cloud |}) pages.

(** [body] in storage format. *)
Definition storage_body (body : string) (is_markdown : bool) : result string :=
  if is_markdown then markdown_to_confluence_storage body else Ret body.

(** [PagesMixin.create_page]. *)
Definition create_page (space_key title body : string)
    (parent_id : option string) (is_markdown : bool) : result ConfluencePage :=
  try_except (
    storage ← storage_body body is_markdown;
    response ← client_create_page confluence space_key title storage
                 parent_id "storage";
    page_id ← Value.get response "id" JNull;
    if negb (Value.truthy page_id) then Raise ValueError
    else get_page_content page_id true)
  (fun e => Raise (Exception e)).

(** [PagesMixin.update_page]; [parent_id] is passed on when it is
    neither [None] nor empty. *)
Definition update_page (page_id : json) (title body : string)
    (is_minor_edit : bool) (version_comment : string) (is_markdown : bool)
    (parent_id : option string) : result ConfluencePage :=
  try_except (
    storage ← storage_body body is_markdown;
    let parent :=
      match parent_id with
      | Some p => if String.eqb p "" then None else Some p
      | None => None
      end in
    _ ← client_update_page confluence page_id title storage is_minor_edit
          version_comment parent;
    get_page_content page_id true)
  (fun e => Raise (Exception e)).

(** The space key read from the first child, if it has one. *)
Definition first_space_key (child_pages : json) : result json :=
  if Value.truthy child_pages then
    first ← Value.getitem0 child_pages;
    has_space ← Value.contains first "space";
    if has_space : bool then
      space ← Value.get first "space" (JDict ∅);
      Value.get space "key" (JStr "")
    else Ret (JStr "")
  else Ret (JStr "").

(** The markdown of a child's body, when it is there and asked for. *)
Definition child_content_override (page space_key : json)
    (convert_to_markdown : bool) : result (option json) :=
  has_body ← Value.contains page "body";
  if (has_body : bool) && convert_to_markdown then
    body ← Value.get page "body" (JDict ∅);
    storage ← Value.get body "storage" (JDict ∅);
    content ← Value.get storage "value" (JStr "");
    if Value.truthy content then
      '(_, processed_markdown) ← process_html_content content space_key;
      Ret (Some processed_markdown)
    else Ret None
  else Ret None.

(** [PagesMixin.get_page_children]. *)
Definition get_page_children (page_id : json) (start limit : Z)
    (expand : string) (convert_to_markdown : bool)
  : result (list ConfluencePage) :=
  try_except (
    results ← get_page_child_by_type confluence page_id "page" start limit expand;
    paged ← has_results results;
    child_pages ←
      (if paged : bool then Value.get results "results" (JList [])
       else Ret (if Value.truthy results then results else JList []));
    space_key ← first_space_key child_pages;
    pages ← Value.iterate child_pages;
    for_each (fun page =>
      override ← child_content_override page space_key convert_to_markdown;
      from_api_response page
        {| base_url := config_url; include_body := true;
           content_override := override;
           content_format :=
             Some (if convert_to_markdown then "markdown" else "storage");
           is_cloud := None |}) pages)
  (fun _ => Ret []).

End Mixin.

End Pages.

(** ** The specification's wording, and the vocabulary of the properties *)

Module Spec.

(** Section 4.1: w=604800s, d=86400s, h=3600s, m=60s. *)
Definition unit_seconds (unit : string) : Z :=
  if String.eqb unit "w" then 604800
  else if String.eqb unit "d" then 86400
  else if String.eqb unit "h" then 3600
  else if String.eqb unit "m" then 60
  else 0.

(** "sum each value x unit_seconds" over the [<int><unit>] matches. *)
Definition matches_total (matches : list (string * string)) : Z :=
  fold_right (fun m acc => Py.digits_value (Py.chars (fst m)) * unit_seconds (snd m) + acc)
             0 matches.

(** The duration parser as section 4.1 words it: the direct integer parse
    of the prefix of a string ending in "s"; otherwise (read as: when that
    gave no value) the sum over the matches; when that is zero the whole
    string as float then int; and 60 when all parsing fails. *)
Definition parse (time_spent : string) : Z :=
  match (if Py.endswith_s time_spent
         then Py.int (Py.drop_last time_spent) else Raise ValueError) with
  | Ret v => v
  | Raise _ =>
      let total := matches_total (Re.findall time_spent) in
      if total =? 0 then
        match Py.float time_spent ≫= Py.int_of_float with
        | Ret v => v
        | Raise _ => 60
        end
      else total
  end.

(** Every matched number is short enough for [int] to convert it. *)
Definition within_digit_limit (matches : list (string * string)) : bool :=
  forallb (fun m => (String.length (fst m) <=? Py.int_max_str_digits)%nat) matches.

(** The string of [n] copies of the character [c]. *)
Fixpoint repeat_char (n : nat) (c : ascii) : string :=
  match n with
  | O => EmptyString
  | S n' => String c (repeat_char n' c)
  end.

(** The lower-case ASCII letters. *)
Definition is_ascii_lower (c : ascii) : bool :=
  (97 <=? Py.code c) && (Py.code c <=? 122).

(** All 256 characters. *)
Definition all_chars : list ascii := map ascii_of_nat (seq 0 256).

(** Two characters that are the same letter up to ASCII case. *)
Definition same_letter (c d : ascii) : bool :=
  Ascii.eqb (Py.ascii_tolower c) (Py.ascii_tolower d).

(** Case-insensitive equality of two strings. *)
Fixpoint equal_ignoring_case (a b : string) : bool :=
  match a, b with
  | EmptyString, EmptyString => true
  | String c a', String d b' => same_letter c d && equal_ignoring_case a' b'
  | _, _ => false
  end.

(** A character that can be part of no [<int><unit>] match. *)
Definition unmatched_char (c : ascii) : bool :=
  negb (Py.is_digit c) && negb (Re.is_unit c).

Definition unmatched (s : string) : bool := forallb unmatched_char (Py.chars s).

(** A record with no author display name: no ["author"] at all, or an
    author object without ["displayName"]. *)
Definition lacks_display_name (m : gmap string json) : Prop :=
  m !! "author" = None
  \/ exists a, m !! "author" = Some (JDict a) /\ a !! "displayName" = None.

End Spec.

(** ** Stand-ins for the collaborators *)

(** Concrete collaborators for the worked examples, after the fixtures of
    the unit tests. *)
Module Fixture.

(** [lambda text: text if text else ""]. *)
Definition clean_text (text : json) : result json :=
  Ret (if Value.truthy text then text else JStr "").

(** A date parser that keeps what it is given, and [str] on it. *)
Definition parse_date (v : json) : result json := Ret v.

Definition str (v : json) : string :=
  match v with
  | JStr s => s
  | _ => "None"
  end.

Definition markdown_to_jira (text : string) : result string :=
  Ret "*This* is _Jira_ formatted".

(** A comment with neither body nor author, and a worklog entry with only
    an id and a creation date. *)
Definition bare_comment : gmap string json :=
  {[ "id" := JStr "10001"; "created" := JStr "2024-01-01T10:00:00.000+0000" ]}.

Definition bare_worklog : gmap string json :=
  {[ "id" := JStr "10001"; "created" := JStr "2024-01-01T10:00:00.000+0000" ]}.

(** The records they are mapped to. *)
Definition bare_comment_record : gmap string json :=
  {[ "id" := JStr "10001"; "body" := JStr "";
     "created" := JStr "2024-01-01T10:00:00.000+0000";
     "updated" := JStr "None"; "author" := JStr "Unknown" ]}.

Definition bare_worklog_record : gmap string json :=
  {[ "id" := JStr "10001"; "comment" := JStr "";
     "created" := JStr "2024-01-01T10:00:00.000+0000";
     "updated" := JStr ""; "started" := JStr "";
     "timeSpent" := JStr ""; "timeSpentSeconds" := JNum 0;
     "author" := JStr "Unknown" ]}.

Definition comment_record (id body author : string) : gmap string json :=
  {[ "id" := JStr id; "body" := JStr body; "created" := JStr "None";
     "updated" := JStr "None"; "author" := JStr author ]}.

Definition comment (id body author : string) : json :=
  JDict {[ "id" := JStr id; "body" := JStr body;
           "author" := JDict {[ "displayName" := JStr author ]} ]}.

Definition three_comments : list json :=
  [ comment "10001" "First comment" "John Doe";
    comment "10002" "Second comment" "Jane Smith";
    comment "10003" "Third comment" "Bob Johnson" ].

(** A Jira client that answers the comment listing with three comments. *)
Definition jira : jira_client :=
  {| issue_get_comments := fun _ => Ret (JDict {[ "comments" := JList three_comments ]});
     issue_get_worklog := fun _ => Ret (JDict ∅);
     issue_add_comment := fun _ _ => Ret (JDict ∅);
     resource_url := fun resource => "rest/api/2/" ++ resource;
     post := fun _ _ => Ret (JDict ∅) |}.

(** A Confluence client whose every request fails with [e]. *)
Definition failing_confluence (e : exn) : Pages.confluence_client :=
  {| Pages.get_page_by_id := fun _ _ => Raise e;
     Pages.client_get_page_ancestors := fun _ => Raise e;
     Pages.get_all_spaces := fun _ _ => Raise e;
     Pages.client_get_page_by_title := fun _ _ _ => Raise e;
     Pages.get_all_pages_from_space := fun _ _ _ _ => Raise e;
     Pages.client_create_page := fun _ _ _ _ _ => Raise e;
     Pages.client_update_page := fun _ _ _ _ _ _ => Raise e;
     Pages.get_page_child_by_type := fun _ _ _ _ _ => Raise e |}.

(** A page model that is the payload itself, and a preprocessor that
    leaves content as it is. *)
Definition from_api_response (page : json) (kwargs : Pages.model_kwargs)
  : result json := Ret page.

Definition process_html_content (content space_key : json)
  : result (json * json) := Ret (content, content).

Definition markdown_to_confluence_storage (body : string) : result string :=
  Ret body.

End Fixture.

(** ** [jira/worklog.py]: the raw worklog and its models *)

Module WorklogModels.

Section Mixin.
(** [JiraWorklog] with its constructor [from_api_response], and the
    client's [worklog] method. *)
Context {JiraWorklog : Type}.
Variable from_api_response : json -> result JiraWorklog.
Variable worklog : string -> result json.

(** [WorklogMixin.get_worklog]. *)
Definition get_worklog (issue_key : string) : result json :=
  try_except (worklog issue_key)
    (fun _ => Ret (JDict {[ "worklogs" := JList [] ]})).

(** [WorklogMixin.get_worklog_models]; it has no handler of its own. *)
Definition get_worklog_models (issue_key : string) : result (list JiraWorklog) :=
  worklog_data ← get_worklog issue_key;
  has_worklogs ← Value.contains worklog_data "worklogs";
  if has_worklogs : bool then
    worklogs ← Value.getitem worklog_data "worklogs";
    if Value.truthy worklogs then
      log_data ← Value.iterate worklogs;
      for_each from_api_response log_data
    else Ret []
  else Ret [].

End Mixin.

End WorklogModels.

(** ** More stand-ins, for the examples of the further properties *)

Module Sample.

(** A comment whose author is JSON [null]. *)
Definition orphan_comment : gmap string json :=
  {[ "id" := JStr "10002"; "body" := JStr "Second comment";
     "author" := JNull ]}.

(** A listing whose second comment has a [null] author. *)
Definition jira_with_orphan : jira_client :=
  {| issue_get_comments := fun _ =>
       Ret (JDict {[ "comments" :=
                       JList [ Fixture.comment "10001" "First comment" "John Doe";
                               JDict orphan_comment;
                               Fixture.comment "10003" "Third comment" "Bob Johnson" ] ]});
     issue_get_worklog := fun _ => Ret (JDict ∅);
     issue_add_comment := fun _ _ => Ret JNull;
     resource_url := fun resource => "rest/api/2/" ++ resource;
     post := fun _ _ => Ret JNull |}.

(** A converter that always fails. *)
Definition failing_markdown_to_jira (text : string) : result string :=
  Raise ValueError.

(** A Confluence client with one page, two spaces and two children. *)
Definition page_without_body : gmap string json :=
  {[ "id" := JStr "123"; "title" := JStr "Home" ]}.

Definition confluence : Pages.confluence_client :=
  {| Pages.get_page_by_id := fun _ _ => Ret (JDict page_without_body);
     Pages.client_get_page_ancestors := fun _ =>
       Ret (JList [JDict {[ "id" := JStr "2" ]}; JDict {[ "id" := JStr "1" ]}]);
     Pages.get_all_spaces := fun _ _ =>
       Ret (JDict {[ "results" := JList [JDict {[ "key" := JStr "DEV" ]};
                                         JDict {[ "key" := JStr "OPS" ]}] ]});
     Pages.client_get_page_by_title := fun _ _ _ => Ret (JDict page_without_body);
     Pages.get_all_pages_from_space := fun _ _ _ _ => Ret (JList []);
     Pages.client_create_page := fun _ _ _ _ _ => Ret (JDict {[ "title" := JStr "Home" ]});
     Pages.client_update_page := fun _ _ _ _ _ _ => Ret (JDict ∅);
     Pages.get_page_child_by_type := fun _ _ _ _ _ =>
       Ret (JList [JDict {[ "id" := JStr "7" ]}; JNum 8]) |}.

(** A client that refuses a public comment and accepts a direct POST. *)
Definition jira_refusing_comments : jira_client :=
  {| issue_get_comments := fun _ => Ret (JDict ∅);
     issue_get_worklog := fun _ => Ret (JDict ∅);
     issue_add_comment := fun _ _ => Raise RequestException;
     resource_url := fun resource => "rest/api/2/" ++ resource;
     post := fun _ _ => Ret (JDict ∅) |}.

(** Two pages with a body, the second with a space of its own. *)
Definition body_of (html : string) : json :=
  JDict {[ "storage" := JDict {[ "value" := JStr html ]} ]}.

Definition page_one : gmap string json :=
  {[ "id" := JStr "1"; "body" := body_of "<p>One</p>" ]}.

Definition page_two : gmap string json :=
  {[ "id" := JStr "2"; "body" := body_of "<p>Two</p>";
     "space" := JDict {[ "key" := JStr "OPS" ]} ]}.

(** [page_one] as [get_space_pages] hands it to the model constructor for
    the space DEV. *)
Definition page_one_in_dev : gmap string json :=
  <[ "space" := JDict {[ "key" := JStr "DEV"; "name" := JStr "DEV" ]} ]> page_one.

(** A Confluence client whose space and whose children are these two
    pages, and one of whose ancestors is [null]. *)
Definition space_confluence : Pages.confluence_client :=
  {| Pages.get_page_by_id := fun _ _ => Ret (JDict page_one);
     Pages.client_get_page_ancestors := fun _ =>
       Ret (JList [JDict {[ "id" := JStr "2" ]}; JNull]);
     Pages.get_all_spaces := fun _ _ => Ret (JList []);
     Pages.client_get_page_by_title := fun _ _ _ => Ret (JDict page_one);
     Pages.get_all_pages_from_space := fun _ _ _ _ =>
       Ret (JList [JDict page_one; JDict page_two]);
     Pages.client_create_page := fun _ _ _ _ _ => Ret (JDict page_one);
     Pages.client_update_page := fun _ _ _ _ _ _ => Ret (JDict page_one);
     Pages.get_page_child_by_type := fun _ _ _ _ _ =>
       Ret (JDict {[ "results" := JList [JDict page_two; JDict page_one] ]}) |}.

(** A model constructor that accepts objects only. *)
Definition from_api_response (page : json) (kwargs : Pages.model_kwargs)
  : result json :=
  if Value.is_dict page then Ret page else Raise TypeError.

End Sample.

(** * Properties *)

(** ** Characters and digit strings *)

Section Characters.
Import Py Re.

Lemma digit_is_not_unit c : is_digit c = true -> is_unit c = false.
Proof. destruct c as [[] [] [] [] [] [] [] []]; vm_compute; congruence. Qed.

Lemma digit_is_plain c :
  is_digit c = true ->
  (code c <? 128) = true /\ is_ascii_space c = false
  /\ is_underscore c = false /\ Ascii.eqb c "-" = false
  /\ Ascii.eqb c "+" = false.
Proof. destruct c as [[] [] [] [] [] [] [] []]; vm_compute; intuition congruence. Qed.

Lemma take_drop_while p s : (take_while p s ++ drop_while p s)%list = s.
Proof.
  induction s as [|c s IH]; simpl; [reflexivity|].
  destruct (p c); simpl; [now rewrite IH | reflexivity].
Qed.

Lemma take_while_all p s : forallb p s = true -> take_while p s = s.
Proof.
  induction s as [|c s IH]; simpl; [reflexivity|].
  destruct (p c); simpl; [intros H; now rewrite IH | discriminate].
Qed.

Lemma take_while_app p a c s :
  forallb p a = true -> p c = false ->
  take_while p (a ++ c :: s)%list = a.
Proof.
  induction a as [|d a IH]; simpl; intros Ha Hc.
  - now rewrite Hc.
  - destruct (p d); [simpl in Ha; now rewrite IH | discriminate].
Qed.

Lemma chars_of_list l : chars (string_of_list_ascii l) = l.
Proof. apply list_ascii_of_string_of_list_ascii. Qed.

Lemma chars_app a b : chars (a ++ b)%string = (chars a ++ chars b)%list.
Proof. induction a as [|c a IH]; simpl; [reflexivity | now rewrite <- IH]. Qed.

End Characters.

(** ** The builtins on sample inputs *)

Section BuiltinExamples.
Import Py.

(** [int] takes white space around the number, a sign, and single
    underscores between digits; nothing else. *)
Example int_examples :
  int " 42 " = Ret 42 /\ int "-7" = Ret (-7) /\ int "1_000" = Ret 1000
  /\ int "007" = Ret 7 /\ int "" = Raise ValueError
  /\ int "1.5" = Raise ValueError /\ int "1__0" = Raise ValueError
  /\ int "- 1" = Raise ValueError /\ int "1h 30" = Raise ValueError.
Proof. split_and!; reflexivity. Qed.

(** [float] rounds to the nearest double, ties to even, and [int] of the
    result truncates toward zero. *)
Example float_examples :
  float "1.5" ≫= int_of_float = Ret 1
  /\ float "-0.5" ≫= int_of_float = Ret 0
  /\ float "1e3" ≫= int_of_float = Ret 1000
  /\ float "0.99999999999999999999" ≫= int_of_float = Ret 1
  /\ float "9007199254740993" ≫= int_of_float = Ret 9007199254740992
  /\ float "12345678901234567890" ≫= int_of_float = Ret 12345678901234567168
  /\ float "0.1" = Ret (Finite false 7205759403792794 (-56))
  /\ float "4.9e-324" = Ret (Finite false 1 (-1074))
  /\ float "1.7976931348623159e308" = Ret (Inf false)
  /\ float "nan" ≫= int_of_float = Raise ValueError
  /\ float "1e" = Raise ValueError
  /\ float "invalid" = Raise ValueError.
Proof. split_and!; vm_compute; reflexivity. Qed.

End BuiltinExamples.

(** ** The regular expression scan *)

Section Scan.
Import Py Re.

Lemma try_lengths_in_run acc rest n :
  forallb is_digit acc = true -> (n < List.length acc)%nat ->
  try_lengths n (acc ++ rest)%list = None.
Proof.
  intros Hacc. induction n as [|n IH]; intros Hn; cbn [try_lengths]; [reflexivity|].
  rewrite nth_error_app1 by exact Hn.
  destruct (nth_error acc (S n)) as [d|] eqn:Hd.
  - assert (Hdig : is_digit d = true).
    { rewrite forallb_forall in Hacc. apply Hacc.
      eapply nth_error_In; eassumption. }
    rewrite (digit_is_not_unit _ Hdig). apply IH. lia.
  - apply IH. lia.
Qed.

(** Giving digits back never helps: a run of digits matches exactly when
    the character that ends it is a unit letter. *)
Lemma match_here_run acc c s :
  forallb is_digit acc = true -> is_digit c = false ->
  match_here (acc ++ c :: s)%list =
    match acc with
    | [] => None
    | _ :: _ => if is_unit c then Some (acc, c) else None
    end.
Proof.
  intros Hacc Hc. unfold match_here.
  rewrite (take_while_app _ _ _ _ Hacc Hc).
  destruct acc as [|d acc']; [reflexivity|].
  remember (d :: acc') as acc eqn:E.
  assert (Hlen : List.length acc = S (List.length acc')) by (subst; reflexivity).
  rewrite Hlen. cbn [try_lengths]. rewrite <- Hlen.
  rewrite nth_error_app2 by lia. rewrite Nat.sub_diag. cbn [nth_error].
  destruct (is_unit c).
  - now rewrite firstn_app, Nat.sub_diag, firstn_all, firstn_O, app_nil_r.
  - apply try_lengths_in_run; [exact Hacc | lia].
Qed.

Lemma match_here_digits acc :
  forallb is_digit acc = true -> match_here acc = None.
Proof.
  intros Hacc. unfold match_here. rewrite (take_while_all _ _ Hacc).
  destruct acc as [|d acc']; [reflexivity|].
  remember (d :: acc') as acc eqn:E.
  assert (Hlen : List.length acc = S (List.length acc')) by (subst; reflexivity).
  rewrite Hlen. cbn [try_lengths]. rewrite <- Hlen.
  replace (nth_error acc (List.length acc)) with (@None ascii)
    by (symmetry; apply nth_error_None; lia).
  rewrite <- (app_nil_r acc).
  apply try_lengths_in_run; [exact Hacc | lia].
Qed.

(** Resuming [k] characters further on is scanning the rest afresh. *)
Lemma findall_from_skipn k s : findall_from k s = findall_from 0 (skipn k s).
Proof.
  revert k. induction s as [|c s IH]; intros [|k]; try reflexivity.
  cbn [findall_from skipn]. apply IH.
Qed.

Lemma findall_from_digits acc :
  forallb is_digit acc = true -> findall_from 0 acc = [].
Proof.
  induction acc as [|d acc IH]; intros Hacc; [reflexivity|].
  cbn [findall_from]. rewrite (match_here_digits _ Hacc).
  apply IH. simpl in Hacc. now apply andb_prop in Hacc.
Qed.

Lemma findall_from_dead_run acc c s :
  forallb is_digit acc = true -> is_digit c = false -> is_unit c = false ->
  findall_from 0 (acc ++ c :: s)%list = findall_from 0 s.
Proof.
  intros Hacc Hc Hu. induction acc as [|d acc IH].
  - cbn [app findall_from].
    change (c :: s) with ([] ++ c :: s)%list at 1.
    now rewrite match_here_run.
  - change ((d :: acc) ++ c :: s)%list with (d :: (acc ++ c :: s))%list.
    cbn [findall_from].
    change (d :: (acc ++ c :: s))%list with ((d :: acc) ++ c :: s)%list.
    rewrite (match_here_run _ _ _ Hacc Hc), Hu.
    apply IH. simpl in Hacc. now apply andb_prop in Hacc.
Qed.

(** The position-by-position search is the one-pass scan. *)
Lemma findall_from_scan s : forall acc,
  forallb is_digit acc = true ->
  findall_from 0 (acc ++ s)%list = scan acc s.
Proof.
  induction s as [|c s IH]; intros acc Hacc.
  - rewrite app_nil_r. now apply findall_from_digits.
  - cbn [scan]. destruct (is_digit c) eqn:Hc.
    + rewrite <- IH.
      * now rewrite <- app_assoc.
      * rewrite forallb_app, Hacc. simpl. now rewrite Hc.
    + destruct acc as [|d acc'].
      * cbn [app findall_from].
        change (c :: s) with ([] ++ c :: s)%list at 1.
        rewrite match_here_run by easy. apply (IH []). reflexivity.
      * destruct (is_unit c) eqn:Hu.
        -- change ((d :: acc') ++ c :: s)%list with (d :: (acc' ++ c :: s))%list.
           cbn [findall_from].
           change (d :: (acc' ++ c :: s))%list with ((d :: acc') ++ c :: s)%list.
           rewrite (match_here_run _ _ _ Hacc Hc), Hu. f_equal.
           rewrite findall_from_skipn.
           change (List.length (d :: acc')) with (S (List.length acc')).
           replace (skipn (S (List.length acc')) (acc' ++ c :: s)%list) with s.
           ++ apply (IH []). reflexivity.
           ++ replace (S (List.length acc')) with (List.length (acc' ++ [c])%list)
                by (rewrite length_app; simpl; lia).
              change (c :: s) with ([c] ++ s)%list.
              now rewrite app_assoc, skipn_app, skipn_all, Nat.sub_diag.
        -- rewrite (findall_from_dead_run _ _ _ Hacc Hc Hu).
           apply (IH []). reflexivity.
Qed.

Lemma findall_scan s : findall s = scan [] (chars s).
Proof. unfold findall. apply (findall_from_scan (chars s) []). reflexivity. Qed.

Example findall_example :
  findall "12h3 4m05d h 1w2" = [("12", "h"); ("4", "m"); ("05", "d"); ("1", "w")].
Proof. reflexivity. Qed.

(** Unmatched characters end a pending run and produce nothing. *)
Lemma scan_unmatched j : forall acc b,
  j <> [] -> forallb Spec.unmatched_char j = true ->
  scan acc (j ++ b)%list = scan [] b.
Proof.
  induction j as [|c j IH]; intros acc b Hne Hj; [congruence|].
  simpl in Hj. apply andb_prop in Hj as [Hc Hj].
  unfold Spec.unmatched_char in Hc. apply andb_prop in Hc as [Hd Hu].
  apply negb_true_iff in Hd, Hu.
  cbn [app scan]. rewrite Hd, Hu.
  destruct j as [|c' j'].
  - now destruct acc.
  - destruct acc; apply IH; congruence || assumption.
Qed.

Lemma scan_app_unmatched a : forall acc j b,
  j <> [] -> forallb Spec.unmatched_char j = true ->
  scan acc (a ++ j ++ b)%list = (scan acc a ++ scan [] b)%list.
Proof.
  induction a as [|c a IH]; intros acc j b Hne Hj.
  - cbn [app scan]. now apply scan_unmatched.
  - cbn [app scan]. destruct (is_digit c); [now apply IH|].
    destruct acc; [now apply IH|].
    destruct (is_unit c); [cbn [app]; f_equal|]; now apply IH.
Qed.

Lemma scan_well_formed s : forall acc,
  forallb is_digit acc = true -> Forall well_formed_match (scan acc s).
Proof.
  induction s as [|c s IH]; intros acc Hacc; cbn [scan]; [constructor|].
  destruct (is_digit c) eqn:Hc.
  - apply IH. rewrite forallb_app, Hacc. simpl. now rewrite Hc.
  - destruct acc as [|d acc']; [now apply IH|].
    destruct (is_unit c) eqn:Hu; [|now apply IH].
    constructor; [|now apply IH].
    exists (d :: acc'), c. repeat split; [congruence | exact Hacc | exact Hu].
Qed.

Lemma findall_well_formed s : Forall well_formed_match (findall s).
Proof. rewrite findall_scan. now apply scan_well_formed. Qed.

End Scan.

(** ** Integers and floats from strings *)

Section Numbers.
Import Py.

Lemma transform_digits ds :
  forallb is_digit ds = true -> transform_decimal_and_space ds = ds.
Proof.
  induction ds as [|d ds IH]; simpl; [reflexivity|].
  intros H. apply andb_prop in H as [Hd Hds].
  destruct (digit_is_plain d Hd) as (-> & _). now rewrite IH.
Qed.

Lemma scan_int_digits_digits ds : forall prev,
  forallb is_digit ds = true -> is_underscore prev = false ->
  scan_int_digits prev ds = Some (ds, []).
Proof.
  induction ds as [|d ds IH]; simpl; intros prev H Hp.
  - now rewrite Hp.
  - apply andb_prop in H as [Hd Hds]. rewrite Hd.
    rewrite IH; [reflexivity | assumption | apply (digit_is_plain d Hd)].
Qed.

(** [int] on a string of digits: its value, unless it is too long. *)
Lemma int_digits ds :
  ds <> [] -> forallb is_digit ds = true ->
  int (string_of_list_ascii ds) =
    if (int_max_str_digits <? List.length ds)%nat
    then Raise ValueError else Ret (digits_value ds).
Proof.
  intros Hne Hds. unfold int.
  rewrite chars_of_list, (transform_digits _ Hds).
  destruct ds as [|d ds']; [congruence|].
  pose proof Hds as Hd. simpl in Hd. apply andb_prop in Hd as [Hd _].
  destruct (digit_is_plain d Hd) as (_ & Hsp & Hun & Hm & Hp).
  cbn [drop_while]. rewrite Hsp. cbn [split_sign]. rewrite Hm, Hp, Hun.
  rewrite (scan_int_digits_digits _ "000"%char Hds eq_refl).
  destruct (int_max_str_digits <? _)%nat; reflexivity.
Qed.

(** The only exception of [int] and of [float] on a string is [ValueError]. *)
Lemma int_raises s e : int s = Raise e -> e = ValueError.
Proof.
  unfold int. repeat case_match; congruence.
Qed.

Lemma float_raises s e : float s = Raise e -> e = ValueError.
Proof.
  unfold float. repeat case_match; congruence.
Qed.

(** [int(x)] raises [OverflowError] exactly on the infinities. *)
Lemma int_of_float_overflow x :
  int_of_float x = Raise OverflowError <-> exists neg, x = Inf neg.
Proof.
  destruct x; simpl; split; try congruence; eauto.
  - intros [? ?]; congruence.
  - intros [? ?]; congruence.
Qed.

Lemma int_of_float_raises x e :
  int_of_float x = Raise e -> e = ValueError \/ e = OverflowError.
Proof. destruct x; simpl; intros H; inversion H; auto. Qed.

End Numbers.

(** ** The loop over the matches *)

Section Loop.
Import Py Re Worklog.

Lemma time_units_of_unit u :
  is_unit u = true ->
  time_units_get (String u EmptyString) = Ret (Spec.unit_seconds (String u EmptyString)).
Proof.
  destruct u as [[] [] [] [] [] [] [] []]; intros H;
    try discriminate H; vm_compute; reflexivity.
Qed.

Lemma string_length_of_list l :
  String.length (string_of_list_ascii l) = List.length l.
Proof. induction l; simpl; congruence. Qed.

(** On well-formed matches the loop adds [value * unit_seconds] for each,
    and stops with a [ValueError] at a number [int] refuses. *)
Lemma add_matches_total ms :
  Forall well_formed_match ms ->
  forall acc,
    add_matches ms acc =
      if Spec.within_digit_limit ms then Ret (acc + Spec.matches_total ms)
      else Raise ValueError.
Proof.
  induction 1 as [|m ms Hm _ IH]; intros acc.
  - simpl. f_equal. lia.
  - destruct Hm as (ds & u & -> & Hne & Hds & Hu).
    cbn [add_matches Spec.within_digit_limit forallb fst].
    rewrite (int_digits _ Hne Hds), string_length_of_list.
    destruct (Nat.ltb_spec int_max_str_digits (List.length ds)) as [Hlong|Hshort].
    + replace (List.length ds <=? int_max_str_digits)%nat with false
        by (symmetry; apply Nat.leb_gt; exact Hlong).
      reflexivity.
    + replace (List.length ds <=? int_max_str_digits)%nat with true
        by (symmetry; apply Nat.leb_le; exact Hshort).
      cbn [mbind result_bind]. rewrite (time_units_of_unit _ Hu).
      cbn [andb mbind result_bind]. rewrite IH.
      fold (Spec.within_digit_limit ms).
      destruct (Spec.within_digit_limit ms); [|reflexivity].
      f_equal. cbn [Spec.matches_total fold_right fst snd].
      fold (Spec.matches_total ms). rewrite chars_of_list. lia.
Qed.

Lemma total_seconds_after_loop_eq s :
  total_seconds_after_loop s =
    if Spec.within_digit_limit (findall s)
    then Ret (Spec.matches_total (findall s)) else Raise ValueError.
Proof.
  unfold total_seconds_after_loop.
  now rewrite (add_matches_total _ (findall_well_formed s)).
Qed.

Lemma matches_total_app ms1 ms2 :
  Spec.matches_total (ms1 ++ ms2) = Spec.matches_total ms1 + Spec.matches_total ms2.
Proof.
  induction ms1 as [|m ms1 IH]; simpl; [reflexivity|].
  fold (Spec.matches_total (ms1 ++ ms2)) (Spec.matches_total ms1). lia.
Qed.

Lemma within_digit_limit_app ms1 ms2 :
  Spec.within_digit_limit (ms1 ++ ms2) =
    Spec.within_digit_limit ms1 && Spec.within_digit_limit ms2.
Proof. apply forallb_app. Qed.

(** A non-empty stretch of unmatched characters separates the matches
    before it from the matches after it. *)
Lemma findall_app_unmatched s1 j s2 :
  j <> "" -> Spec.unmatched j = true ->
  findall (s1 ++ j ++ s2) = (findall s1 ++ findall s2)%list.
Proof.
  intros Hne Hj. rewrite !findall_scan, !chars_app.
  apply scan_app_unmatched; [|exact Hj].
  destruct j; [congruence | discriminate].
Qed.

End Loop.

(** ** The duration parser *)

Section Parser.
Import Py Re Worklog.

(** The parser, branch by branch. *)
Lemma parse_time_spent_unfold s :
  _parse_time_spent s =
    match (if endswith_s s then int (drop_last s) else Raise ValueError) with
    | Ret v => Ret v
    | Raise _ =>
        if Spec.within_digit_limit (findall s) then
          if Spec.matches_total (findall s) =? 0 then numeric_fallback s
          else Ret (Spec.matches_total (findall s))
        else Raise ValueError
    end.
Proof.
  unfold _parse_time_spent.
  assert (Hrest :
    (total_seconds ← total_seconds_after_loop s;
     if total_seconds =? 0 then numeric_fallback s else Ret total_seconds) =
    if Spec.within_digit_limit (findall s) then
      if Spec.matches_total (findall s) =? 0 then numeric_fallback s
      else Ret (Spec.matches_total (findall s))
    else Raise ValueError).
  { rewrite total_seconds_after_loop_eq.
    now destruct (Spec.within_digit_limit (findall s)). }
  destruct (endswith_s s); [|exact Hrest].
  destruct (int (drop_last s)) as [v|e] eqn:E; [reflexivity|].
  apply int_raises in E. subst e. exact Hrest.
Qed.

(** Whatever the parser returns is what the stated algorithm gives. *)
Lemma parse_time_spent_returns_stated s v :
  _parse_time_spent s = Ret v -> v = Spec.parse s.
Proof.
  rewrite parse_time_spent_unfold. unfold Spec.parse, numeric_fallback.
  destruct (if endswith_s s then int (drop_last s) else Raise ValueError) as [w|e].
  - congruence.
  - destruct (Spec.within_digit_limit (findall s)); [|discriminate].
    destruct (Spec.matches_total (findall s) =? 0); [|congruence].
    destruct (float s) as [x|e']; cbn [mbind result_bind try_except].
    + destruct (int_of_float x) as [w|[]]; cbn [try_except]; congruence.
    + destruct e'; congruence.
Qed.

(** It raises in two ways only: the float fallback met an infinity, or a
    matched number was too long for [int]. *)
Lemma parse_time_spent_raises s e :
  _parse_time_spent s = Raise e ->
  (e = OverflowError /\ exists neg, float s = Ret (Inf neg))
  \/ (e = ValueError /\ Spec.within_digit_limit (findall s) = false).
Proof.
  rewrite parse_time_spent_unfold. unfold numeric_fallback.
  destruct (if endswith_s s then int (drop_last s) else Raise ValueError) as [w|e'];
    [discriminate|].
  destruct (Spec.within_digit_limit (findall s)); [|intros [= <-]; now right].
  destruct (Spec.matches_total (findall s) =? 0); [|discriminate].
  destruct (float s) as [x|e''] eqn:Ef; cbn [mbind result_bind try_except].
  - destruct x as [|neg|neg m ex]; cbn [int_of_float]; try discriminate.
    intros [= <-]. left. eauto.
  - apply float_raises in Ef. subst e''. discriminate.
Qed.

(** Away from those two cases it returns, and returns the stated value. *)
Lemma parse_time_spent_returns s :
  Spec.within_digit_limit (findall s) = true ->
  (forall neg, float s <> Ret (Inf neg)) ->
  _parse_time_spent s = Ret (Spec.parse s).
Proof.
  intros Hlim Hinf.
  destruct (_parse_time_spent s) as [v|e] eqn:E.
  - now rewrite (parse_time_spent_returns_stated _ _ E).
  - apply parse_time_spent_raises in E as [[_ [neg Hneg]]|[_ Hfalse]].
    + now apply Hinf in Hneg.
    + congruence.
Qed.

(** C1. The parser follows the algorithm of section 4.1 wherever it
    returns, and the three stated examples hold; but on ["inf"] the float
    fallback succeeds, [int] of the infinity raises [OverflowError], and the
    handler for [ValueError] lets it escape where the stated algorithm
    gives the default 60. *)
Theorem parse_time_spent_stated_algorithm :
  (forall s v, _parse_time_spent s = Ret v -> v = Spec.parse s)
  /\ _parse_time_spent "1w 2d 3h 4m" = Ret 788640
  /\ _parse_time_spent "1h 30m" = Ret 5400
  /\ _parse_time_spent "invalid" = Ret 60
  /\ Spec.parse "inf" = 60
  /\ _parse_time_spent "inf" = Raise OverflowError.
Proof.
  split; [exact parse_time_spent_returns_stated|].
  split_and!; vm_compute; reflexivity.
Qed.

(** C5. A string whose matches sum to zero goes on to the numeric
    fallback: ["0h"] has the single match 0h, total 0, is no float literal
    and gives the default 60; ["0"] has no match, is a float literal and
    gives 0. *)
Theorem zero_total_falls_through :
  (forall s, endswith_s s = false -> total_seconds_after_loop s = Ret 0 ->
             _parse_time_spent s = numeric_fallback s)
  /\ (findall "0h" = [("0", "h")]
      /\ total_seconds_after_loop "0h" = Ret 0
      /\ float "0h" = Raise ValueError
      /\ _parse_time_spent "0h" = Ret 60)
  /\ (findall "0" = []
      /\ float "0" ≫= int_of_float = Ret 0
      /\ _parse_time_spent "0" = Ret 0).
Proof.
  split.
  - intros s Hs Htotal. rewrite parse_time_spent_unfold, Hs.
    rewrite total_seconds_after_loop_eq in Htotal.
    destruct (Spec.within_digit_limit (findall s)); [|discriminate].
    injection Htotal as ->. reflexivity.
  - split_and!; vm_compute; reflexivity.
Qed.

(** C7. Characters outside every match are ignored and the matched
    components add up.  The total the loop reaches is the sum of
    [value * unit_seconds] over the matches and of nothing else; with a
    non-empty stretch [j] of characters that are neither digits nor unit
    letters between [s1] and [s2], the matches of the whole are those of
    [s1] followed by those of [s2], its total is the sum of the two totals
    (the same unit on both sides is counted twice), and that sum is what
    the parser returns when it is not zero and the string does not end in
    "s". *)
Theorem unmatched_ignored_components_summed s1 j s2 t1 t2 :
  j <> "" -> Spec.unmatched j = true ->
  total_seconds_after_loop s1 = Ret t1 ->
  total_seconds_after_loop s2 = Ret t2 ->
  t1 = Spec.matches_total (findall s1)
  /\ t2 = Spec.matches_total (findall s2)
  /\ findall (s1 ++ j ++ s2) = (findall s1 ++ findall s2)%list
  /\ total_seconds_after_loop (s1 ++ j ++ s2) = Ret (t1 + t2)
  /\ (endswith_s (s1 ++ j ++ s2) = false -> t1 + t2 <> 0 ->
      _parse_time_spent (s1 ++ j ++ s2) = Ret (t1 + t2)).
Proof.
  intros Hne Hj H1 H2.
  rewrite total_seconds_after_loop_eq in H1, H2.
  destruct (Spec.within_digit_limit (findall s1)) eqn:L1; [|discriminate].
  destruct (Spec.within_digit_limit (findall s2)) eqn:L2; [|discriminate].
  injection H1 as <-. injection H2 as <-.
  assert (Hall : total_seconds_after_loop (s1 ++ j ++ s2) =
                 Ret (Spec.matches_total (findall s1) + Spec.matches_total (findall s2))).
  { rewrite total_seconds_after_loop_eq, (findall_app_unmatched _ _ _ Hne Hj).
    now rewrite within_digit_limit_app, L1, L2, matches_total_app. }
  split; [reflexivity|]. split; [reflexivity|].
  split; [exact (findall_app_unmatched _ _ _ Hne Hj)|].
  split; [exact Hall|].
  intros Hs Hnz. rewrite parse_time_spent_unfold, Hs.
  rewrite total_seconds_after_loop_eq in Hall.
  destruct (Spec.within_digit_limit (findall (s1 ++ j ++ s2))); [|discriminate].
  injection Hall as ->.
  now apply Z.eqb_neq in Hnz as ->.
Qed.

(** The example of C7: the two hours of ["1h 1h"] are both counted. *)
Lemma unmatched_ignored_components_summed_witness :
  total_seconds_after_loop "1h 1h" = Ret (3600 + 3600)
  /\ _parse_time_spent "1h 1h" = Ret 7200.
Proof.
  assert (Hj : " " <> "") by discriminate.
  assert (H1h : total_seconds_after_loop "1h" = Ret 3600) by (vm_compute; reflexivity).
  destruct (unmatched_ignored_components_summed "1h" " " "1h" 3600 3600
              Hj eq_refl H1h H1h) as (_ & _ & _ & Htotal & Hparse).
  split; [exact Htotal|]. apply Hparse; [reflexivity | discriminate].
Defined.

(** Digits without a unit and letters without a number are passed over
    as well. *)
Example unmatched_digits_and_letters :
  _parse_time_spent "1h 30" = Ret 3600
  /\ _parse_time_spent "about 2h, then 15m more" = Ret 8100
  /\ _parse_time_spent "1.5h" = Ret 18000.
Proof. split_and!; vm_compute; reflexivity. Qed.

(** C10. The parser is not total.  [float] accepts the spellings of
    infinity and every literal too large for a double; [int] of an infinity
    raises [OverflowError], which the handler for [ValueError] does not
    catch.  So every string that does not end in "s", has no match and
    reads as an infinite float makes the parser raise; "inf", "-Infinity"
    and "1e400" are such strings. *)
Theorem parse_time_spent_raises_on_infinity :
  (forall s, endswith_s s = false -> findall s = [] ->
             (exists neg, float s = Ret (Inf neg)) ->
             _parse_time_spent s = Raise OverflowError)
  /\ _parse_time_spent "inf" = Raise OverflowError
  /\ _parse_time_spent "-Infinity" = Raise OverflowError
  /\ _parse_time_spent "1e400" = Raise OverflowError.
Proof.
  assert (Hinf : forall s, endswith_s s = false -> findall s = [] ->
                   (exists neg, float s = Ret (Inf neg)) ->
                   _parse_time_spent s = Raise OverflowError).
  { intros s Hs Hm [neg Hf]. rewrite parse_time_spent_unfold, Hs, Hm.
    cbn [Spec.within_digit_limit forallb Spec.matches_total fold_right Z.eqb].
    unfold numeric_fallback. now rewrite Hf. }
  split_and!.
  - exact Hinf.
  - apply Hinf; [reflexivity | reflexivity | exists false; reflexivity].
  - apply Hinf; [reflexivity | reflexivity | exists true; reflexivity].
  - apply Hinf; [reflexivity | reflexivity | exists false; vm_compute; reflexivity].
Qed.

(** The other way to raise: [int(value)] in the loop is outside every
    [try], and under the interpreter's default limit it refuses a number of
    more than 4300 digits. *)
Lemma parse_time_spent_raises_on_long_number :
  _parse_time_spent (Spec.repeat_char 4301 "1" ++ "h") = Raise ValueError.
Proof.
  rewrite parse_time_spent_unfold.
  replace (endswith_s (Spec.repeat_char 4301 "1" ++ "h")) with false
    by (vm_compute; reflexivity).
  replace (Spec.within_digit_limit (findall (Spec.repeat_char 4301 "1" ++ "h")))
    with false by (vm_compute; reflexivity).
  reflexivity.
Qed.

End Parser.

(** ** Comment visibility *)

Section Visibility.
Import Py.

Lemma in_all_chars c : In c Spec.all_chars.
Proof.
  unfold Spec.all_chars. rewrite <- (ascii_nat_embedding c).
  apply in_map, in_seq. pose proof (nat_ascii_bounded c). lia.
Qed.

(** Against a lower-case ASCII letter, [str.lower] and ASCII case folding
    decide the same. *)
Lemma lower_char_same_letter c d :
  Spec.is_ascii_lower d = true ->
  Ascii.eqb (lower_char c) d = Spec.same_letter c d.
Proof.
  assert (Hall : forallb (fun c => forallb (fun d =>
            implb (Spec.is_ascii_lower d)
                  (Bool.eqb (Ascii.eqb (lower_char c) d) (Spec.same_letter c d)))
            Spec.all_chars) Spec.all_chars = true) by (vm_compute; reflexivity).
  intros Hd. rewrite forallb_forall in Hall.
  specialize (Hall c (in_all_chars c)). rewrite forallb_forall in Hall.
  specialize (Hall d (in_all_chars d)). rewrite Hd in Hall.
  now apply eqb_prop in Hall.
Qed.

Lemma lower_equal_ignoring_case w : forall v,
  forallb Spec.is_ascii_lower (chars w) = true ->
  String.eqb (lower v) w = Spec.equal_ignoring_case v w.
Proof.
  induction w as [|d w IH]; intros [|c v] Hw; try reflexivity.
  cbn [chars list_ascii_of_string forallb] in Hw.
  apply andb_prop in Hw as [Hd Hw].
  cbn [lower String.eqb Spec.equal_ignoring_case].
  rewrite (lower_char_same_letter c d Hd), (IH v Hw).
  now destruct (Spec.same_letter c d).
Qed.

(** C2. Visibility is resolved in three tiers: the global flag wins, also
    over an explicit "public"; without the flag no visibility means public;
    otherwise "internal" in any case gives internal, "public" in any case
    gives public, and every other string gives internal. *)
Theorem visibility_three_tiers :
  (forall (force_internal_comments : bool) (visibility : option string),
     Comments.should_be_internal force_internal_comments visibility =
       match force_internal_comments, visibility with
       | true, _ => true
       | false, None => false
       | false, Some v =>
           if Spec.equal_ignoring_case v "internal" then true
           else if Spec.equal_ignoring_case v "public" then false
           else true
       end)
  /\ Comments.should_be_internal true (Some "public") = true
  /\ Comments.should_be_internal false None = false
  /\ Comments.should_be_internal false (Some "INTERNAL") = true.
Proof.
  split.
  - intros [] [v|]; try reflexivity.
    unfold Comments.should_be_internal.
    now rewrite !lower_equal_ignoring_case by reflexivity.
  - split_and!; reflexivity.
Qed.

End Visibility.

(** ** Posting a comment *)

Section AddComment.
Context {date : Type}.
Variable _clean_text : json -> result json.
Variable parse_date : json -> result date.
Variable str : date -> string.
Variable markdown_to_jira : string -> result string.
Variable force_internal_comments : bool.

(** The requests of a computation that makes one request and then only
    works on its answer. *)
Lemma calls_of_one_request {A B} (c : jira_call) (answer : result A)
    (k : A -> result B) :
  fst (reraise_wrapped (x ← request c answer; lift (k x))) = [c].
Proof. unfold reraise_wrapped, request, lift. now destruct answer. Qed.

(** C6. An internal comment goes out as one direct POST to the comment
    resource of the issue, with a body that carries the property
    [sd.public.comment] of value [{"internal": true}]; a public comment
    goes out as one [issue_add_comment] call and nothing else. *)
Theorem internal_comment_posted_with_property :
  forall (jira : jira_client) (issue_key comment : string)
         (visibility : option string),
    let text := Comments._markdown_to_jira markdown_to_jira comment in
    fst (Comments.add_comment _clean_text parse_date str markdown_to_jira
           force_internal_comments jira issue_key comment visibility) =
      if Comments.should_be_internal force_internal_comments visibility
      then [Call_post
              (resource_url jira "issue" ++ "/" ++ issue_key ++ "/comment")
              (JDict {[ "body" := JStr text;
                        "properties" :=
                          JList [JDict {[ "key" := JStr "sd.public.comment";
                                          "value" := JDict {[ "internal" := JBool true ]} ]}] ]})]
      else [Call_issue_add_comment issue_key text].
Proof.
  intros jira issue_key comment visibility text.
  unfold Comments.add_comment.
  destruct (Comments.should_be_internal force_internal_comments visibility).
  - apply calls_of_one_request.
  - apply calls_of_one_request.
Qed.

End AddComment.

(** ** Mapping responses to records *)

Section ResultMonad.

Lemma bind_ret_inv {A B} (r : result A) (k : A -> result B) y :
  r ≫= k = Ret y -> exists x, r = Ret x /\ k x = Ret y.
Proof. destruct r as [x|e]; [eauto | discriminate]. Qed.

(** A loop returns exactly when every step does, with the outcomes in the
    order of the items. *)
Lemma for_each_ret {A B} (f : A -> result B) xs ys :
  for_each f xs = Ret ys <-> Forall2 (fun x y => f x = Ret y) xs ys.
Proof.
  revert ys. induction xs as [|x xs IH]; intros ys; cbn [for_each].
  - split; [intros [= <-]; constructor | intros H; inversion H; reflexivity].
  - split.
    + intros H. apply bind_ret_inv in H as (y & Hy & H).
      apply bind_ret_inv in H as (ys' & Hys & [= <-]).
      constructor; [exact Hy | now apply IH].
    + intros H. inversion H as [|? y ? ys' Hy Hys]; subst.
      apply IH in Hys. now rewrite Hy, Hys.
Qed.

End ResultMonad.

Ltac bind_inv H :=
  repeat match type of H with
         | _ ≫= _ = Ret _ =>
             let x := fresh "x" in
             let Hx := fresh "Hx" in
             apply bind_ret_inv in H as (x & Hx & H)
         end.

(** A lookup of a literal key in a dictionary display. *)
Ltac lookup_display :=
  rewrite ?lookup_insert_ne by discriminate;
  first [rewrite lookup_insert_eq | rewrite lookup_singleton_eq];
  reflexivity.

Section Mapping.
Context {date : Type}.
Variable _clean_text : json -> result json.
Variable parse_date : json -> result date.
Variable str : date -> string.

Lemma get_author_unknown m :
  Spec.lacks_display_name m ->
  Value.get (JDict m) "author" (JDict ∅)
    ≫= (fun author => Value.get author "displayName" (JStr "Unknown"))
  = Ret (JStr "Unknown").
Proof.
  intros [Hnone|(a & Ha & Hd)]; cbn [Value.get mbind result_bind].
  - rewrite Hnone. cbn [Value.get]. now rewrite lookup_empty.
  - rewrite Ha. cbn [Value.get]. now rewrite Hd.
Qed.

(** A comment without ["body"] is mapped like the same comment with an
    empty body, and likewise for each default of a worklog entry. *)
Lemma processed_comment_default_body m :
  m !! "body" = None ->
  Comments.processed_comment _clean_text parse_date str (JDict m) =
  Comments.processed_comment _clean_text parse_date str
    (JDict (<["body" := JStr ""]> m)).
Proof.
  intros Hb. unfold Comments.processed_comment. cbn [Value.get].
  rewrite Hb, lookup_insert_eq.
  now rewrite !lookup_insert_ne by discriminate.
Qed.

Lemma worklog_entry_default m key default :
  In (key, default)
     [("comment", JStr ""); ("created", JStr ""); ("updated", JStr "");
      ("started", JStr ""); ("timeSpent", JStr "");
      ("timeSpentSeconds", JNum 0); ("author", JDict ∅)] ->
  m !! key = None ->
  Worklog.worklog_entry _clean_text parse_date str (JDict m) =
  Worklog.worklog_entry _clean_text parse_date str (JDict (<[key := default]> m)).
Proof.
  intros Hin Hk. unfold Worklog.worklog_entry. cbn [Value.get].
  cbn [In] in Hin.
  destruct Hin as [[= <- <-]|[[= <- <-]|[[= <- <-]|[[= <- <-]|[[= <- <-]|
                  [[= <- <-]|[[= <- <-]|[]]]]]]]];
    rewrite Hk, lookup_insert_eq;
    now rewrite !lookup_insert_ne by discriminate.
Qed.

(** With collaborators that do not raise, a comment whose author is
    absent or an object is mapped to a record. *)
Lemma processed_comment_returns m :
  (forall v, exists r, _clean_text v = Ret r) ->
  (forall v, exists d, parse_date v = Ret d) ->
  m !! "author" = None \/ (exists a, m !! "author" = Some (JDict a)) ->
  exists record,
    Comments.processed_comment _clean_text parse_date str (JDict m) = Ret record.
Proof.
  intros Hclean Hdate Hauthor.
  unfold Comments.processed_comment, Comments.str_parse_date.
  cbn [Value.get mbind result_bind].
  destruct (Hclean (match m !! "body" with Some x => x | None => JStr "" end))
    as [body ->].
  destruct (Hdate (match m !! "created" with Some x => x | None => JNull end))
    as [created ->].
  destruct (Hdate (match m !! "updated" with Some x => x | None => JNull end))
    as [updated ->].
  cbn [mbind result_bind].
  destruct Hauthor as [-> | [a ->]]; cbn [Value.get mbind result_bind]; eauto.
Qed.

(** C8. Missing fields get their defaults: a comment without author
    display name is mapped to the author "Unknown" and one without body to
    the empty body; a worklog entry without comment or time-spent text gets
    the empty string, without author display name "Unknown", and without
    [timeSpentSeconds] the number 0.  ([_clean_text] is outside the three
    files: it is taken to leave the empty string empty, as its stand-ins in
    the unit tests do.) *)
Theorem missing_fields_default (c w out_c out_w : gmap string json) :
  _clean_text (JStr "") = Ret (JStr "") ->
  Comments.processed_comment _clean_text parse_date str (JDict c) = Ret out_c ->
  Worklog.worklog_entry _clean_text parse_date str (JDict w) = Ret out_w ->
  ((Spec.lacks_display_name c -> out_c !! "author" = Some (JStr "Unknown"))
   /\ (c !! "body" = None -> out_c !! "body" = Some (JStr "")))
  /\ ((w !! "comment" = None -> out_w !! "comment" = Some (JStr ""))
      /\ (w !! "timeSpent" = None -> out_w !! "timeSpent" = Some (JStr ""))
      /\ (Spec.lacks_display_name w -> out_w !! "author" = Some (JStr "Unknown"))
      /\ (w !! "timeSpentSeconds" = None ->
          out_w !! "timeSpentSeconds" = Some (JNum 0))).
Proof.
  intros Hclean Hc Hw. split.
  - unfold Comments.processed_comment in Hc. cbn [Value.get] in Hc.
    bind_inv Hc. injection Hc as <-. split.
    + intros Hlack.
      pose proof (get_author_unknown c Hlack) as Ha.
      cbn [Value.get mbind result_bind] in Ha.
      injection Hx3 as <-. rewrite Ha in Hx4. injection Hx4 as <-.
      lookup_display.
    + intros Hb. rewrite Hb in Hx0. cbn [mbind result_bind] in Hx0.
      rewrite Hclean in Hx0. injection Hx0 as <-.
      lookup_display.
  - unfold Worklog.worklog_entry in Hw. cbn [Value.get] in Hw.
    bind_inv Hw. injection Hw as <-. split_and!.
    + intros Hm. rewrite Hm in Hx0. cbn [mbind result_bind] in Hx0.
      rewrite Hclean in Hx0. injection Hx0 as <-.
      lookup_display.
    + intros Hm. rewrite Hm in Hx4. injection Hx4 as <-.
      lookup_display.
    + intros Hlack.
      pose proof (get_author_unknown w Hlack) as Ha.
      cbn [Value.get mbind result_bind] in Ha.
      injection Hx6 as <-. rewrite Ha in Hx7. injection Hx7 as <-.
      lookup_display.
    + intros Hm. rewrite Hm in Hx5. injection Hx5 as <-.
      lookup_display.
Qed.

End Mapping.

Section MappingExamples.

(** The example of C8, with the collaborators of the unit tests. *)
Lemma missing_fields_default_witness :
  Comments.processed_comment Fixture.clean_text Fixture.parse_date Fixture.str
    (JDict Fixture.bare_comment) = Ret Fixture.bare_comment_record
  /\ Worklog.worklog_entry Fixture.clean_text Fixture.parse_date Fixture.str
       (JDict Fixture.bare_worklog) = Ret Fixture.bare_worklog_record
  /\ Fixture.bare_comment_record !! "author" = Some (JStr "Unknown")
  /\ Fixture.bare_comment_record !! "body" = Some (JStr "")
  /\ Fixture.bare_worklog_record !! "comment" = Some (JStr "")
  /\ Fixture.bare_worklog_record !! "timeSpent" = Some (JStr "")
  /\ Fixture.bare_worklog_record !! "author" = Some (JStr "Unknown")
  /\ Fixture.bare_worklog_record !! "timeSpentSeconds" = Some (JNum 0).
Proof.
  assert (Hc : Comments.processed_comment Fixture.clean_text Fixture.parse_date
                 Fixture.str (JDict Fixture.bare_comment)
               = Ret Fixture.bare_comment_record) by (vm_compute; reflexivity).
  assert (Hw : Worklog.worklog_entry Fixture.clean_text Fixture.parse_date
                 Fixture.str (JDict Fixture.bare_worklog)
               = Ret Fixture.bare_worklog_record) by (vm_compute; reflexivity).
  assert (Hcn : forall k, k = "body" \/ k = "author" ->
                  Fixture.bare_comment !! k = None)
    by (intros k [-> | ->]; vm_compute; reflexivity).
  assert (Hwn : forall k, k = "comment" \/ k = "timeSpent" \/ k = "author"
                          \/ k = "timeSpentSeconds" ->
                  Fixture.bare_worklog !! k = None)
    by (intros k [-> | [-> | [-> | ->]]]; vm_compute; reflexivity).
  destruct (missing_fields_default Fixture.clean_text Fixture.parse_date
              Fixture.str Fixture.bare_comment Fixture.bare_worklog
              Fixture.bare_comment_record Fixture.bare_worklog_record
              eq_refl Hc Hw)
    as [[Hauthor Hbody] (Hcomment & Hspent & Hwauthor & Hseconds)].
  split_and!.
  - exact Hc.
  - exact Hw.
  - apply Hauthor. left. apply Hcn. auto.
  - apply Hbody. apply Hcn. auto.
  - apply Hcomment. apply Hwn. auto.
  - apply Hspent. apply Hwn. auto.
  - apply Hwauthor. left. apply Hwn. auto.
  - apply Hseconds. apply Hwn. auto.
Defined.

End MappingExamples.

(** ** Listing comments *)

Section Listing.
Context {date : Type}.
Variable _clean_text : json -> result json.
Variable parse_date : json -> result date.
Variable str : date -> string.

Lemma slice_to_nonnegative {A} (l : list A) limit :
  0 <= limit ->
  Value.slice_to l limit =
    firstn (Z.to_nat (Z.min limit (Z.of_nat (List.length l)))) l.
Proof.
  intros Hl. unfold Value.slice_to.
  replace (0 <=? limit) with true by (symmetry; now apply Z.leb_le).
  destruct (Z.min_spec limit (Z.of_nat (List.length l))) as [[_ ->]|[Hge ->]].
  - reflexivity.
  - rewrite Nat2Z.id, firstn_all. apply firstn_all2. lia.
Qed.

(** A negative limit is Python's slice from the end: it drops the last
    [-limit] items. *)
Lemma slice_to_negative {A} (l : list A) limit :
  limit < 0 ->
  Value.slice_to l limit = firstn (List.length l - Z.to_nat (- limit)) l.
Proof.
  intros Hl. unfold Value.slice_to.
  replace (0 <=? limit) with false by (symmetry; apply Z.leb_gt; lia).
  f_equal. lia.
Qed.

(** C9. With [n] comments in the response and a limit [k >= 0], the call
    returns exactly when the first [min k n] comments can each be mapped,
    and what it returns is their records, in the order of the response. *)
Theorem comments_truncated_to_limit (jira : jira_client) (issue_key : string)
    (limit : Z) (response : gmap string json) (comments : list json)
    (out : list (gmap string json)) :
  issue_get_comments jira issue_key = Ret (JDict response) ->
  response !! "comments" = Some (JList comments) ->
  0 <= limit ->
  snd (Comments.get_issue_comments _clean_text parse_date str jira issue_key limit)
    = Ret out
  <-> Forall2 (fun comment record =>
                 Comments.processed_comment _clean_text parse_date str comment
                 = Ret record)
        (firstn (Z.to_nat (Z.min limit (Z.of_nat (List.length comments)))) comments)
        out.
Proof.
  intros Hresp Hcomments Hlimit.
  rewrite <- for_each_ret, <- (slice_to_nonnegative _ _ Hlimit).
  unfold Comments.get_issue_comments, reraise_wrapped, request, lift.
  rewrite Hresp. cbn [mbind io_bind snd Value.is_dict negb Value.get].
  rewrite Hcomments. cbn [mbind result_bind Value.slice_items].
  unfold try_except.
  destruct (for_each _ _) as [records|e]; split; congruence.
Qed.

End Listing.

Section ListingExamples.

(** The example of C9: a limit of 2 on three comments returns the first
    two, in order. *)
Lemma comments_truncated_to_limit_witness :
  snd (Comments.get_issue_comments Fixture.clean_text Fixture.parse_date
         Fixture.str Fixture.jira "TEST-123" 2)
  = Ret [ Fixture.comment_record "10001" "First comment" "John Doe";
          Fixture.comment_record "10002" "Second comment" "Jane Smith" ].
Proof.
  eapply (comments_truncated_to_limit Fixture.clean_text Fixture.parse_date
            Fixture.str Fixture.jira "TEST-123" 2 _ Fixture.three_comments).
  - reflexivity.
  - vm_compute; reflexivity.
  - lia.
  - change (Z.to_nat (Z.min 2 (Z.of_nat (List.length Fixture.three_comments))))
      with 2%nat.
    cbn [Fixture.three_comments firstn].
    constructor; [vm_compute; reflexivity|].
    constructor; [vm_compute; reflexivity|].
    constructor.
Defined.

End ListingExamples.

(** ** Errors of the page operations *)

Section PageErrors.
Context {ConfluencePage : Type}.
Variable from_api_response : json -> Pages.model_kwargs -> result ConfluencePage.
Variable process_html_content : json -> json -> result (json * json).
Variable markdown_to_confluence_storage : string -> result string.
Variable config_url : string.
Variable config_is_cloud : bool.
Variable confluence : Pages.confluence_client.

Local Abbreviation get_page_content :=
  (Pages.get_page_content from_api_response process_html_content config_url
     config_is_cloud confluence).
Local Abbreviation get_page_ancestors :=
  (Pages.get_page_ancestors from_api_response config_url confluence).
Local Abbreviation get_page_by_title :=
  (Pages.get_page_by_title from_api_response process_html_content config_url
     config_is_cloud confluence).
Local Abbreviation get_page_children :=
  (Pages.get_page_children from_api_response process_html_content config_url
     confluence).
Local Abbreviation get_space_pages :=
  (Pages.get_space_pages from_api_response process_html_content config_url
     config_is_cloud confluence).
Local Abbreviation create_page :=
  (Pages.create_page from_api_response process_html_content
     markdown_to_confluence_storage config_url config_is_cloud confluence).
Local Abbreviation update_page :=
  (Pages.update_page from_api_response process_html_content
     markdown_to_confluence_storage config_url config_is_cloud confluence).

(** The two lookups with a catch-all handler never raise. *)
Lemma get_page_children_never_raises page_id start limit expand convert :
  exists pages, get_page_children page_id start limit expand convert = Ret pages.
Proof.
  unfold Pages.get_page_children, try_except.
  destruct (_ ≫= _) as [pages|e]; eauto.
Qed.

Lemma get_page_by_title_never_raises space_key title convert :
  exists page, get_page_by_title space_key title convert = Ret page.
Proof.
  unfold Pages.get_page_by_title, try_except.
  destruct (_ ≫= _) as [page|e]; [eauto|].
  destruct e; eauto.
Qed.

(** What [get_page_ancestors] does with an exception of its body. *)
Lemma get_page_ancestors_on_error page_id e :
  Pages.client_get_page_ancestors confluence page_id = Raise e ->
  get_page_ancestors page_id =
    match e with
    | HTTPError status_code => Pages.on_http_error status_code
    | _ => Ret []
    end.
Proof.
  intros He. unfold Pages.get_page_ancestors. rewrite He.
  cbn [mbind result_bind try_except]. reflexivity.
Qed.

(** [get_page_by_title] answers [None] when either of its two requests
    raises. *)
Lemma get_page_by_title_on_error space_key title convert e :
  Pages.get_all_spaces confluence 0 500 = Raise e
  \/ Pages.client_get_page_by_title confluence space_key title
       "body.storage,version" = Raise e ->
  get_page_by_title space_key title convert = Ret None.
Proof.
  intros [He|He]; unfold Pages.get_page_by_title.
  - rewrite He. cbn [mbind result_bind try_except]. now destruct e.
  - destruct (Pages.get_all_spaces confluence 0 500) as [spaces|e1];
      [|now destruct e1].
    cbn [mbind result_bind].
    destruct (Pages.has_results spaces) as [paged|e1]; [|now destruct e1].
    cbn [mbind result_bind].
    destruct (if paged then _ else _) as [space_list|e1]; [|now destruct e1].
    cbn [mbind result_bind].
    destruct (for_each _ space_list) as [space_keys|e1]; [|now destruct e1].
    cbn [mbind result_bind].
    destruct (negb _); [reflexivity|].
    rewrite He. now destruct e.
Qed.

(** The parent [update_page] hands to the client: the one it was given,
    unless that is [None] or empty. *)
Lemma parent_passed_on (parent_id : option string) :
  match parent_id with
  | Some p => if String.eqb p "" then None else Some p
  | None => None
  end
  = match parent_id with
    | Some "" | None => None
    | Some parent => Some parent
    end.
Proof. destruct parent_id as [[|c p]|]; reflexivity. Qed.

Lemma on_http_error_auth {A} code :
  code = 401 \/ code = 403 ->
  @Pages.on_http_error A (Some code) =
    Raise (MCPAtlassianAuthenticationError (HTTPError (Some code))).
Proof. intros [-> | ->]; reflexivity. Qed.

Lemma on_http_error_other {A} status_code :
  status_code <> Some 401 -> status_code <> Some 403 ->
  @Pages.on_http_error A status_code = Raise (HTTPError status_code).
Proof.
  intros H1 H3. destruct status_code as [code|]; [|reflexivity].
  unfold Pages.on_http_error.
  destruct (Z.eqb_spec code 401) as [->|_]; [congruence|].
  destruct (Z.eqb_spec code 403) as [->|_]; [congruence|reflexivity].
Qed.

(** C3, as the code has it.  An [HTTPError] with status 401 or 403 from
    the client is re-raised as [MCPAtlassianAuthenticationError] by
    [get_page_content] and [get_page_ancestors]; [get_page_by_title]
    returns [None] and [get_page_children] the empty list; [get_space_pages]
    lets the [HTTPError] through as it is; [create_page] and [update_page],
    with or without a parent, re-raise it wrapped in a plain [Exception]. *)
Theorem auth_errors_by_operation (code : Z) :
  code = 401 \/ code = 403 ->
  let e := HTTPError (Some code) in
  (forall page_id convert,
      Pages.get_page_by_id confluence page_id
        "body.storage,version,space,children.attachment" = Raise e ->
      get_page_content page_id convert = Raise (MCPAtlassianAuthenticationError e))
  /\ (forall page_id,
      Pages.client_get_page_ancestors confluence page_id = Raise e ->
      get_page_ancestors page_id = Raise (MCPAtlassianAuthenticationError e))
  /\ (forall space_key title convert,
      Pages.get_all_spaces confluence 0 500 = Raise e
      \/ Pages.client_get_page_by_title confluence space_key title
           "body.storage,version" = Raise e ->
      get_page_by_title space_key title convert = Ret None)
  /\ (forall page_id start limit expand convert,
      Pages.get_page_child_by_type confluence page_id "page" start limit expand
        = Raise e ->
      get_page_children page_id start limit expand convert = Ret [])
  /\ (forall space_key start limit convert,
      Pages.get_all_pages_from_space confluence space_key start limit
        "body.storage" = Raise e ->
      get_space_pages space_key start limit convert = Raise e)
  /\ (forall space_key title body parent_id is_markdown storage,
      Pages.storage_body markdown_to_confluence_storage body is_markdown
        = Ret storage ->
      Pages.client_create_page confluence space_key title storage parent_id
        "storage" = Raise e ->
      create_page space_key title body parent_id is_markdown
        = Raise (Exception e))
  /\ (forall page_id title body is_minor_edit version_comment is_markdown
             parent_id storage,
      Pages.storage_body markdown_to_confluence_storage body is_markdown
        = Ret storage ->
      Pages.client_update_page confluence page_id title storage is_minor_edit
        version_comment
        match parent_id with
        | Some "" | None => None
        | Some parent => Some parent
        end = Raise e ->
      update_page page_id title body is_minor_edit version_comment is_markdown
        parent_id = Raise (Exception e))
  /\ (forall space_key title body parent_id is_markdown storage response
             page_id,
      Pages.storage_body markdown_to_confluence_storage body is_markdown
        = Ret storage ->
      Pages.client_create_page confluence space_key title storage parent_id
        "storage" = Ret response ->
      Value.get response "id" JNull = Ret page_id ->
      Value.truthy page_id = true ->
      Pages.get_page_by_id confluence page_id
        "body.storage,version,space,children.attachment" = Raise e ->
      create_page space_key title body parent_id is_markdown
        = Raise (Exception (MCPAtlassianAuthenticationError e)))
  /\ (forall page_id title body is_minor_edit version_comment is_markdown
             parent_id storage response,
      Pages.storage_body markdown_to_confluence_storage body is_markdown
        = Ret storage ->
      Pages.client_update_page confluence page_id title storage is_minor_edit
        version_comment
        match parent_id with
        | Some "" | None => None
        | Some parent => Some parent
        end = Ret response ->
      Pages.get_page_by_id confluence page_id
        "body.storage,version,space,children.attachment" = Raise e ->
      update_page page_id title body is_minor_edit version_comment is_markdown
        parent_id = Raise (Exception (MCPAtlassianAuthenticationError e))).
Proof.
  intros Hcode e. subst e. split_and!.
  - intros page_id convert He. unfold Pages.get_page_content. rewrite He.
    cbn [mbind result_bind try_except]. now apply on_http_error_auth.
  - intros page_id He. rewrite (get_page_ancestors_on_error _ _ He).
    now apply on_http_error_auth.
  - intros space_key title convert He.
    now apply (get_page_by_title_on_error _ _ _ (HTTPError (Some code))).
  - intros page_id start limit expand convert He.
    unfold Pages.get_page_children. rewrite He. reflexivity.
  - intros space_key start limit convert He. unfold Pages.get_space_pages.
    rewrite He. reflexivity.
  - intros space_key title body parent_id is_markdown storage Hs He.
    unfold Pages.create_page. rewrite Hs.
    cbn [mbind result_bind]. rewrite He. reflexivity.
  - intros page_id title body is_minor_edit version_comment is_markdown
      parent_id storage Hs He.
    unfold Pages.update_page. rewrite Hs.
    cbn [mbind result_bind]. rewrite parent_passed_on, He. reflexivity.
  - intros space_key title body parent_id is_markdown storage response
      page_id Hs Hresp Hid Htrue He.
    unfold Pages.create_page. rewrite Hs.
    cbn [mbind result_bind]. rewrite Hresp.
    cbn [mbind result_bind]. rewrite Hid.
    cbn [mbind result_bind]. rewrite Htrue. cbn [negb].
    unfold Pages.get_page_content. rewrite He.
    cbn [mbind result_bind try_except].
    now rewrite (on_http_error_auth code Hcode).
  - intros page_id title body is_minor_edit version_comment is_markdown
      parent_id storage response Hs Hresp He.
    unfold Pages.update_page. rewrite Hs.
    cbn [mbind result_bind]. rewrite parent_passed_on, Hresp.
    cbn [mbind result_bind].
    unfold Pages.get_page_content. rewrite He.
    cbn [mbind result_bind try_except].
    now rewrite (on_http_error_auth code Hcode).
Qed.

(** C4, as the code has it.  [get_page_children] and [get_page_by_title]
    swallow every exception of the client and return the empty list and
    [None]; [get_page_ancestors] returns the empty list for every exception
    but an [HTTPError], which it re-raises: as the authentication error for
    status 401 or 403, unchanged otherwise. *)
Theorem best_effort_lookups (e : exn) :
  (forall page_id start limit expand convert,
      Pages.get_page_child_by_type confluence page_id "page" start limit expand
        = Raise e ->
      get_page_children page_id start limit expand convert = Ret [])
  /\ (forall space_key title convert,
      Pages.get_all_spaces confluence 0 500 = Raise e
      \/ Pages.client_get_page_by_title confluence space_key title
           "body.storage,version" = Raise e ->
      get_page_by_title space_key title convert = Ret None)
  /\ (forall page_id,
      Pages.client_get_page_ancestors confluence page_id = Raise e ->
      (forall status_code, e <> HTTPError status_code) ->
      get_page_ancestors page_id = Ret [])
  /\ (forall page_id status_code,
      e = HTTPError status_code ->
      Pages.client_get_page_ancestors confluence page_id = Raise e ->
      get_page_ancestors page_id =
        if bool_decide (status_code = Some 401 \/ status_code = Some 403)
        then Raise (MCPAtlassianAuthenticationError e)
        else Raise e).
Proof.
  split_and!.
  - intros page_id start limit expand convert He.
    unfold Pages.get_page_children. rewrite He. reflexivity.
  - intros space_key title convert He.
    now apply (get_page_by_title_on_error _ _ _ e).
  - intros page_id He Hnot. rewrite (get_page_ancestors_on_error _ _ He).
    destruct e; try reflexivity. now destruct (Hnot status_code).
  - intros page_id status_code -> He.
    rewrite (get_page_ancestors_on_error _ _ He).
    case_bool_decide as Hs.
    + destruct Hs as [-> | ->]; reflexivity.
    + apply on_http_error_other; intros ->; apply Hs; auto.
Qed.

End PageErrors.

Section PageErrorExamples.

Local Abbreviation failing e := (Fixture.failing_confluence e).

(** C3 does not hold of every page operation: on a 401 from the client
    [get_page_children] returns the empty list and raises nothing. *)
Lemma children_swallow_auth_error :
  Pages.get_page_children Fixture.from_api_response Fixture.process_html_content
    "https://example.atlassian.net/wiki" (failing (HTTPError (Some 401)))
    (JStr "123") 0 25 "version" true = Ret []
  /\ forall cause,
       Pages.get_page_children Fixture.from_api_response
         Fixture.process_html_content "https://example.atlassian.net/wiki"
         (failing (HTTPError (Some 401))) (JStr "123") 0 25 "version" true
       <> Raise (MCPAtlassianAuthenticationError cause).
Proof. split; [reflexivity | discriminate]. Qed.

(** C4 does not hold of [get_page_ancestors]: a 500 from the client comes
    out of it as the [HTTPError] it was. *)
Lemma ancestors_reraise_http_error :
  Pages.get_page_ancestors Fixture.from_api_response
    "https://example.atlassian.net/wiki" (failing (HTTPError (Some 500)))
    (JStr "123") = Raise (HTTPError (Some 500))
  /\ Pages.get_page_ancestors Fixture.from_api_response
       "https://example.atlassian.net/wiki" (failing (HTTPError (Some 500)))
       (JStr "123") <> Ret [].
Proof. split; [reflexivity | discriminate]. Qed.

(** The example of C3: a client that answers 401 to everything. *)
Lemma auth_errors_by_operation_witness :
  Pages.get_page_content Fixture.from_api_response Fixture.process_html_content
    "https://example.atlassian.net/wiki" true (failing (HTTPError (Some 401)))
    (JStr "123") true
  = Raise (MCPAtlassianAuthenticationError (HTTPError (Some 401)))
  /\ Pages.get_page_ancestors Fixture.from_api_response
       "https://example.atlassian.net/wiki" (failing (HTTPError (Some 401)))
       (JStr "123")
     = Raise (MCPAtlassianAuthenticationError (HTTPError (Some 401)))
  /\ Pages.get_space_pages Fixture.from_api_response Fixture.process_html_content
       "https://example.atlassian.net/wiki" true (failing (HTTPError (Some 401)))
       "DEV" 0 10 true
     = Raise (HTTPError (Some 401))
  /\ Pages.create_page Fixture.from_api_response Fixture.process_html_content
       Fixture.markdown_to_confluence_storage
       "https://example.atlassian.net/wiki" true (failing (HTTPError (Some 401)))
       "DEV" "Title" "Body" None false
     = Raise (Exception (HTTPError (Some 401)))
  /\ Pages.update_page Fixture.from_api_response Fixture.process_html_content
       Fixture.markdown_to_confluence_storage
       "https://example.atlassian.net/wiki" true (failing (HTTPError (Some 401)))
       (JStr "123") "Title" "Body" false "" false (Some "77")
     = Raise (Exception (HTTPError (Some 401))).
Proof.
  destruct (auth_errors_by_operation Fixture.from_api_response
              Fixture.process_html_content Fixture.markdown_to_confluence_storage
              "https://example.atlassian.net/wiki" true
              (failing (HTTPError (Some 401))) 401 (or_introl eq_refl))
    as (Hcontent & Hancestors & _ & _ & Hspace & Hcreate & Hupdate & _).
  split_and!.
  - apply Hcontent. reflexivity.
  - apply Hancestors. reflexivity.
  - apply Hspace. reflexivity.
  - apply (Hcreate "DEV" "Title" "Body" None false "Body"); reflexivity.
  - apply (Hupdate (JStr "123") "Title" "Body" false "" false (Some "77") "Body");
      reflexivity.
Defined.

(** The example of C4: a client whose requests time out. *)
Lemma best_effort_lookups_witness :
  Pages.get_page_children Fixture.from_api_response Fixture.process_html_content
    "https://example.atlassian.net/wiki" (failing RequestException)
    (JStr "123") 0 25 "version" true = Ret []
  /\ Pages.get_page_by_title Fixture.from_api_response
       Fixture.process_html_content "https://example.atlassian.net/wiki" true
       (failing RequestException) "DEV" "Title" true = Ret None
  /\ Pages.get_page_ancestors Fixture.from_api_response
       "https://example.atlassian.net/wiki" (failing RequestException)
       (JStr "123") = Ret [].
Proof.
  destruct (best_effort_lookups Fixture.from_api_response
              Fixture.process_html_content
              "https://example.atlassian.net/wiki" true
              (failing RequestException) RequestException)
    as (Hchildren & Htitle & Hancestors & _).
  split_and!.
  - apply Hchildren. reflexivity.
  - apply Htitle. left. reflexivity.
  - apply Hancestors; [reflexivity | discriminate].
Defined.

End PageErrorExamples.

(** * Further properties *)

(** ** The duration parser: seconds, order, totality *)

Section ParserFurther.
Import Py Re Worklog.

Lemma endswith_s_app p : endswith_s (p ++ "s") = true.
Proof.
  unfold endswith_s. rewrite chars_app. cbn [chars list_ascii_of_string].
  now rewrite rev_app_distr.
Qed.

Lemma drop_last_app p : drop_last (p ++ "s") = p.
Proof.
  unfold drop_last. rewrite chars_app. cbn [chars list_ascii_of_string].
  rewrite removelast_last. apply string_of_list_ascii_of_string.
Qed.

Lemma findall_app_s p : findall (p ++ "s") = findall p.
Proof.
  change (p ++ "s") with (p ++ "s" ++ "").
  rewrite findall_app_unmatched by (discriminate || reflexivity).
  apply app_nil_r.
Qed.

(** A whole number of seconds, written with the suffix "s", is returned as
    it is, sign included. *)
Theorem seconds_suffix_returned (p : string) (v : Z) :
  int p = Ret v -> _parse_time_spent (p ++ "s") = Ret v.
Proof.
  intros Hint. rewrite parse_time_spent_unfold.
  now rewrite endswith_s_app, drop_last_app, Hint.
Qed.

Lemma seconds_suffix_returned_witness :
  _parse_time_spent "3600s" = Ret 3600 /\ _parse_time_spent "-5s" = Ret (-5).
Proof.
  split.
  - apply (seconds_suffix_returned "3600" 3600). reflexivity.
  - apply (seconds_suffix_returned "-5" (-5)). reflexivity.
Defined.

(** Seconds written after other components are not counted: when what
    stands before the final "s" is no integer, the "s" and the digits
    before it are passed over and the other components decide. *)
Theorem trailing_seconds_dropped (p : string) (e : exn) (t : Z) :
  int p = Raise e ->
  total_seconds_after_loop p = Ret t ->
  t <> 0 ->
  _parse_time_spent (p ++ "s") = Ret t.
Proof.
  intros Hint Htotal Hnz. rewrite parse_time_spent_unfold.
  rewrite endswith_s_app, drop_last_app, Hint, findall_app_s.
  rewrite total_seconds_after_loop_eq in Htotal.
  destruct (Spec.within_digit_limit (findall p)); [|discriminate].
  injection Htotal as ->. now apply Z.eqb_neq in Hnz as ->.
Qed.

Lemma trailing_seconds_dropped_witness :
  _parse_time_spent "1h 30s" = Ret 3600.
Proof.
  apply (trailing_seconds_dropped "1h 30" ValueError 3600).
  - reflexivity.
  - vm_compute; reflexivity.
  - discriminate.
Defined.

(** The components may come in any order: swapping what stands on the two
    sides of a stretch of unmatched characters changes neither the total of
    the loop nor, when that total is not zero and neither string ends in
    "s", the result. *)
Theorem components_commute (s1 j s2 : string) :
  j <> "" -> Spec.unmatched j = true ->
  total_seconds_after_loop (s1 ++ j ++ s2) = total_seconds_after_loop (s2 ++ j ++ s1)
  /\ (forall t, total_seconds_after_loop (s1 ++ j ++ s2) = Ret t -> t <> 0 ->
        endswith_s (s1 ++ j ++ s2) = false ->
        endswith_s (s2 ++ j ++ s1) = false ->
        _parse_time_spent (s1 ++ j ++ s2) = Ret t
        /\ _parse_time_spent (s2 ++ j ++ s1) = Ret t).
Proof.
  intros Hne Hj.
  assert (Hswap : total_seconds_after_loop (s1 ++ j ++ s2)
                  = total_seconds_after_loop (s2 ++ j ++ s1)).
  { rewrite !total_seconds_after_loop_eq.
    rewrite !(findall_app_unmatched _ _ _ Hne Hj).
    rewrite !within_digit_limit_app, !matches_total_app.
    rewrite (andb_comm (Spec.within_digit_limit (findall s1))).
    now rewrite (Z.add_comm (Spec.matches_total (findall s1))). }
  split; [exact Hswap|].
  intros t Ht Hnz He1 He2.
  assert (Hparse : forall s, total_seconds_after_loop s = Ret t ->
                     endswith_s s = false -> _parse_time_spent s = Ret t).
  { intros s Hs He. rewrite parse_time_spent_unfold, He.
    rewrite total_seconds_after_loop_eq in Hs.
    destruct (Spec.within_digit_limit (findall s)); [|discriminate].
    injection Hs as ->. now apply Z.eqb_neq in Hnz as ->. }
  split; apply Hparse; congruence.
Qed.

Lemma components_commute_witness :
  _parse_time_spent "30m 1h" = Ret 5400 /\ _parse_time_spent "1h 30m" = Ret 5400.
Proof.
  assert (Hj : " " <> "") by discriminate.
  destruct (components_commute "30m" " " "1h" Hj eq_refl) as [_ Hparse].
  apply (Hparse 5400); [vm_compute; reflexivity | discriminate | reflexivity | reflexivity].
Defined.

(** No matched number is longer than the string it was found in. *)
Lemma scan_value_lengths s : forall pending,
  Forall (fun m => (String.length (fst m) <= List.length pending + List.length s)%nat)
         (scan pending s).
Proof.
  induction s as [|c s IH]; intros pending; cbn [scan]; [constructor|].
  assert (Hrest : Forall (fun m => (String.length (fst m)
                      <= List.length pending + List.length (c :: s))%nat) (scan [] s)).
  { eapply List.Forall_impl; [|apply (IH [])]. cbn. intros m Hm. lia. }
  destruct (is_digit c).
  - eapply List.Forall_impl; [|apply (IH (pending ++ [c])%list)].
    cbn. intros m Hm. rewrite length_app in Hm. cbn in Hm. lia.
  - destruct pending as [|d pending']; [exact Hrest|].
    destruct (is_unit c); [|exact Hrest].
    constructor; [|exact Hrest].
    cbn [fst]. rewrite string_length_of_list. lia.
Qed.

Lemma chars_length s : List.length (chars s) = String.length s.
Proof.
  unfold chars. induction s as [|c s IH]; cbn; [reflexivity | now f_equal].
Qed.

Lemma short_string_within_digit_limit s :
  (String.length s <= int_max_str_digits)%nat ->
  Spec.within_digit_limit (findall s) = true.
Proof.
  intros Hlen. unfold Spec.within_digit_limit. apply forallb_forall.
  intros m Hm. rewrite findall_scan in Hm.
  pose proof (scan_value_lengths (chars s) []) as Hall.
  rewrite List.Forall_forall in Hall. specialize (Hall m Hm).
  cbn [List.length] in Hall. rewrite chars_length in Hall.
  apply Nat.leb_le. lia.
Qed.

(** Away from the two ways of raising the parser is total: on a string of
    at most 4300 characters that [float] does not read as an infinity it
    returns an integer, the one [Spec.parse] computes. *)
Theorem parse_time_spent_total_on_finite (s : string) :
  (String.length s <= 4300)%nat ->
  (forall neg, float s <> Ret (Inf neg)) ->
  _parse_time_spent s = Ret (Spec.parse s).
Proof.
  intros Hlen Hfinite.
  apply parse_time_spent_returns; [|exact Hfinite].
  now apply short_string_within_digit_limit.
Qed.

Lemma parse_time_spent_total_on_finite_witness :
  _parse_time_spent "2d 4h" = Ret (Spec.parse "2d 4h")
  /\ Spec.parse "2d 4h" = 187200.
Proof.
  split; [|reflexivity].
  apply parse_time_spent_total_on_finite.
  - cbn. lia.
  - intros neg. discriminate.
Defined.

End ParserFurther.

(** ** The duration parser: what the results look like *)

Section ParserResults.
Import Py Re Worklog.

Lemma digit_value_nonneg c : is_digit c = true -> 0 <= digit_value c.
Proof.
  unfold is_digit, digit_value. intros H.
  apply andb_prop in H as [H _]. apply Z.leb_le in H. lia.
Qed.

Lemma digits_value_nonneg ds : forallb is_digit ds = true -> 0 <= digits_value ds.
Proof.
  unfold digits_value.
  assert (Hgen : forall acc, 0 <= acc -> forallb is_digit ds = true ->
            0 <= fold_left (fun a c => 10 * a + digit_value c) ds acc).
  { induction ds as [|d ds IH]; intros acc Hacc Hds; cbn [fold_left]; [exact Hacc|].
    cbn [forallb] in Hds. apply andb_prop in Hds as [Hd Hds].
    apply IH; [|exact Hds]. pose proof (digit_value_nonneg d Hd). lia. }
  apply Hgen. lia.
Qed.

Lemma unit_seconds_minutes u :
  is_unit u = true ->
  exists k, 0 < k /\ Spec.unit_seconds (String u EmptyString) = 60 * k.
Proof.
  intros H. exists (Spec.unit_seconds (String u EmptyString) / 60).
  destruct u as [[] [] [] [] [] [] [] []]; try discriminate H;
    split; vm_compute; reflexivity.
Qed.

Lemma matches_total_minutes ms :
  Forall well_formed_match ms ->
  exists k, 0 <= k /\ Spec.matches_total ms = 60 * k.
Proof.
  induction 1 as [|m ms Hm _ IH].
  - exists 0. split; [lia | reflexivity].
  - destruct Hm as (ds & u & -> & _ & Hds & Hu).
    destruct IH as (k & Hk & Hms).
    destruct (unit_seconds_minutes u Hu) as (ku & Hku & Hus).
    pose proof (digits_value_nonneg ds Hds) as Hv.
    exists (digits_value ds * ku + k). split; [nia|].
    cbn [Spec.matches_total fold_right fst snd].
    fold (Spec.matches_total ms). rewrite chars_of_list, Hus, Hms. lia.
Qed.

(** Every duration read from unit components is a whole number of
    minutes: when the loop ends with a total that is not zero, the parser
    (on a string that does not end in "s") returns that total, which is a
    positive multiple of 60. *)
Theorem unit_durations_are_whole_minutes (s : string) (t : Z) :
  endswith_s s = false ->
  total_seconds_after_loop s = Ret t ->
  t <> 0 ->
  _parse_time_spent s = Ret t /\ 60 <= t /\ (60 | t).
Proof.
  intros Hs Htotal Hnz.
  rewrite total_seconds_after_loop_eq in Htotal.
  destruct (Spec.within_digit_limit (findall s)) eqn:Hlim; [|discriminate].
  injection Htotal as Ht.
  destruct (matches_total_minutes _ (findall_well_formed s)) as (k & Hk & Hm).
  split_and!.
  - rewrite parse_time_spent_unfold, Hs, Hlim, Ht.
    now apply Z.eqb_neq in Hnz as ->.
  - lia.
  - exists k. lia.
Qed.

Lemma unit_durations_are_whole_minutes_witness :
  _parse_time_spent "1d 6h" = Ret 108000 /\ 60 <= 108000 /\ (60 | 108000).
Proof.
  apply unit_durations_are_whole_minutes.
  - reflexivity.
  - vm_compute; reflexivity.
  - discriminate.
Defined.

(** *** A bare integer goes through [float] *)

Lemma digit_is_no_letter c :
  is_digit c = true ->
  Ascii.eqb (ascii_tolower c) "i" = false
  /\ Ascii.eqb (ascii_tolower c) "n" = false
  /\ Ascii.eqb c "s" = false.
Proof. destruct c as [[] [] [] [] [] [] [] []]; vm_compute; intuition congruence. Qed.

Lemma strip_underscores_digits ds : forall prev,
  forallb is_digit ds = true -> is_underscore prev = false ->
  strip_underscores prev ds = Some ds.
Proof.
  induction ds as [|d ds IH]; intros prev Hds Hp; cbn [strip_underscores].
  - now rewrite Hp.
  - cbn [forallb] in Hds. apply andb_prop in Hds as [Hd Hds].
    destruct (digit_is_plain d Hd) as (_ & _ & Hu & _).
    rewrite Hu, Hp. cbn [andb]. now rewrite (IH d Hds Hu).
Qed.

Lemma drop_while_space_digits ds :
  forallb is_digit ds = true -> drop_while is_ascii_space ds = ds.
Proof.
  destruct ds as [|d ds]; [reflexivity|]. cbn [forallb drop_while].
  intros H. apply andb_prop in H as [Hd _].
  destruct (digit_is_plain d Hd) as (_ & -> & _). reflexivity.
Qed.

Lemma drop_while_all p ds : forallb p ds = true -> drop_while p ds = [].
Proof.
  induction ds as [|d ds IH]; [reflexivity|]. cbn [forallb drop_while].
  intros H. apply andb_prop in H as [-> Hds]. now apply IH.
Qed.

Lemma forallb_rev_digits ds :
  forallb is_digit ds = true -> forallb is_digit (rev ds) = true.
Proof.
  rewrite !forallb_forall. intros H c Hc. apply H. now apply in_rev.
Qed.

(** [float] reads a string of digits as the double nearest to its value. *)
Lemma float_digits ds :
  ds <> [] -> forallb is_digit ds = true ->
  float (string_of_list_ascii ds) = Ret (binary64_of_ratio false (digits_value ds) 1).
Proof.
  intros Hne Hds. unfold float.
  rewrite chars_of_list, (transform_digits _ Hds).
  rewrite (strip_underscores_digits _ "000"%char Hds eq_refl).
  rewrite (drop_while_space_digits _ Hds).
  rewrite (drop_while_space_digits _ (forallb_rev_digits _ Hds)), rev_involutive.
  destruct ds as [|d ds']; [congruence|].
  pose proof Hds as Hd. cbn [forallb] in Hd. apply andb_prop in Hd as [Hd _].
  destruct (digit_is_plain d Hd) as (_ & _ & _ & Hm & Hp).
  destruct (digit_is_no_letter d Hd) as (Hi & Hn & _).
  cbn [split_sign]. rewrite Hm, Hp.
  unfold parse_inf_or_nan.
  cbn [chars list_ascii_of_string case_insensitive_match]. rewrite Hi, Hn.
  unfold parse_decimal.
  rewrite (take_while_all _ _ Hds), (drop_while_all _ _ Hds), app_nil_r.
  cbn [List.length Z.of_nat Z.sub Z.opp Z.leb Z.compare].
  now rewrite Z.pow_0_r, Z.mul_1_r.
Qed.

(** Integers below [2^53] are doubles: nothing is lost on the way. *)
Lemma binary64_of_small_integer n :
  0 <= n < 2 ^ 53 -> int_of_float (binary64_of_ratio false n 1) = Ret n.
Proof.
  intros [Hlo Hhi]. unfold binary64_of_ratio.
  destruct (Z.eqb_spec n 0) as [->|Hnz]; [reflexivity|].
  assert (Hpos : 0 < n) by lia.
  change (Z.log2 1) with 0. rewrite Z.sub_0_r.
  pose proof (Z.log2_spec n Hpos) as [Hklo Hkhi].
  pose proof (Z.log2_nonneg n) as Hk0.
  assert (Hk52 : Z.log2 n <= 52).
  { assert (Z.log2 n < 53); [|lia]. apply Z.log2_lt_pow2; lia. }
  set (k := Z.log2 n) in *.
  rewrite (Z.max_l 0 (- k)) by lia. rewrite (Z.max_r 0 k) by lia.
  rewrite Z.pow_0_r, Z.mul_1_r, Z.mul_1_l.
  replace (n <? 2 ^ k) with false by (symmetry; apply Z.ltb_ge; lia).
  rewrite (Z.max_l (k - 52) (-1074)) by lia.
  rewrite (Z.max_r 0 (- (k - 52))) by lia. rewrite (Z.max_l 0 (k - 52)) by lia.
  rewrite Z.pow_0_r.
  replace (- (k - 52)) with (52 - k) by lia.
  unfold round_half_even.
  rewrite Z.mul_1_r, Z.div_1_r, Z.mod_1_r.
  change (2 * 0 ?= 1) with Lt. cbv iota.
  assert (Hm : n * 2 ^ (52 - k) < 2 ^ 53).
  { replace (2 ^ 53) with (2 ^ (Z.succ k) * 2 ^ (52 - k)).
    - apply Z.mul_lt_mono_pos_r; [apply Z.pow_pos_nonneg; lia | exact Hkhi].
    - rewrite <- Z.pow_add_r by lia. f_equal. lia. }
  replace (n * 2 ^ (52 - k) =? 2 ^ 53) with false by (symmetry; apply Z.eqb_neq; lia).
  replace (971 <? k - 52) with false by (symmetry; apply Z.ltb_ge; lia).
  cbn [int_of_float apply_sign]. f_equal.
  destruct (Z.leb_spec 0 (k - 52)) as [Hge|Hlt].
  - replace (k - 52) with 0 by lia. replace (52 - k) with 0 by lia.
    rewrite Z.pow_0_r. lia.
  - replace (- (k - 52)) with (52 - k) by lia.
    apply Z.div_mul. apply Z.pow_nonzero; lia.
Qed.

(** A bare non-negative integer below [2^53] is returned as it is; it is
    read through [float], so from [2^53] on the result is the nearest
    double instead: 9007199254740993 comes back as 9007199254740992. *)
Theorem bare_integer_returned (s : string) :
  s <> "" ->
  forallb is_digit (chars s) = true ->
  digits_value (chars s) < 2 ^ 53 ->
  _parse_time_spent s = Ret (digits_value (chars s)).
Proof.
  intros Hne Hds Hsmall.
  assert (Hcs : chars s <> []) by (destruct s; [congruence | discriminate]).
  rewrite parse_time_spent_unfold.
  assert (Hs : endswith_s s = false).
  { unfold endswith_s.
    pose proof (forallb_rev_digits _ Hds) as Hrev.
    destruct (rev (chars s)) as [|c r]; [reflexivity|].
    cbn [forallb] in Hrev. apply andb_prop in Hrev as [Hc _].
    apply (digit_is_no_letter c Hc). }
  rewrite Hs.
  assert (Hm : findall s = []).
  { unfold findall. now apply findall_from_digits. }
  rewrite Hm.
  cbn [Spec.within_digit_limit forallb Spec.matches_total fold_right Z.eqb].
  unfold numeric_fallback.
  pose proof (float_digits _ Hcs Hds) as Hfloat.
  replace (string_of_list_ascii (chars s)) with s in Hfloat
    by (symmetry; apply string_of_list_ascii_of_string).
  rewrite Hfloat. cbn [mbind result_bind try_except].
  rewrite binary64_of_small_integer; [reflexivity|].
  split; [now apply digits_value_nonneg | exact Hsmall].
Qed.

Lemma bare_integer_returned_witness :
  _parse_time_spent "3600" = Ret 3600
  /\ _parse_time_spent "9007199254740991" = Ret 9007199254740991.
Proof.
  split.
  - apply (bare_integer_returned "3600"); [discriminate | reflexivity | reflexivity].
  - apply (bare_integer_returned "9007199254740991");
      [discriminate | reflexivity | reflexivity].
Defined.

(** Above the bound the float shows. *)
Example large_integer_rounded :
  _parse_time_spent "9007199254740993" = Ret 9007199254740992
  /\ _parse_time_spent "12345678901234567890" = Ret 12345678901234567168.
Proof. split; vm_compute; reflexivity. Qed.

End ParserResults.

(** ** Comments and worklogs: listings *)

Section ListingFurther.
Context {date : Type}.
Variable _clean_text : json -> result json.
Variable parse_date : json -> result date.
Variable str : date -> string.

Local Abbreviation processed_comment :=
  (Comments.processed_comment _clean_text parse_date str).
Local Abbreviation worklog_entry :=
  (Worklog.worklog_entry _clean_text parse_date str).

(** A loop stops at the first item that raises. *)
Lemma for_each_raise {A B} (f : A -> result B) pre x post e :
  Forall (fun y => exists r, f y = Ret r) pre ->
  f x = Raise e ->
  for_each f (pre ++ x :: post)%list = Raise e.
Proof.
  intros Hpre Hx. induction Hpre as [|y pre [r Hy] _ IH]; cbn [app for_each].
  - now rewrite Hx.
  - now rewrite Hy, IH.
Qed.

(** The listing is all or nothing: when a comment within the limit cannot
    be mapped, the call raises [Exception] from that comment's error and
    the records of the comments before it are lost. *)
Theorem one_bad_comment_fails_listing (jira : jira_client) (issue_key : string)
    (limit : Z) (response : gmap string json) (before after : list json)
    (comment : json) (e : exn) :
  issue_get_comments jira issue_key = Ret (JDict response) ->
  response !! "comments" = Some (JList (before ++ comment :: after)%list) ->
  Z.of_nat (List.length before) < limit ->
  Forall (fun c => exists record, processed_comment c = Ret record) before ->
  processed_comment comment = Raise e ->
  Comments.get_issue_comments _clean_text parse_date str jira issue_key limit
  = ([Call_issue_get_comments issue_key], Raise (Exception e)).
Proof.
  intros Hresp Hcomments Hlimit Hbefore Hbad.
  unfold Comments.get_issue_comments, reraise_wrapped, request, lift.
  rewrite Hresp. cbn [mbind io_bind fst snd Value.is_dict negb Value.get].
  rewrite Hcomments. cbn [mbind result_bind Value.slice_items].
  rewrite slice_to_nonnegative by lia.
  assert (Hkept : exists rest,
            firstn (Z.to_nat (Z.min limit
                      (Z.of_nat (List.length (before ++ comment :: after)%list))))
                   (before ++ comment :: after)%list
            = (before ++ comment :: rest)%list).
  { rewrite firstn_app.
    rewrite firstn_all2 by (rewrite length_app; cbn [List.length]; lia).
    rewrite length_app. cbn [List.length].
    destruct (Z.to_nat (Z.min limit (Z.of_nat (List.length before + S (List.length after))))
              - List.length before)%nat as [|n] eqn:Hn; [lia|].
    cbn [firstn]. eauto. }
  destruct Hkept as [rest ->].
  rewrite (for_each_raise _ _ _ _ _ Hbefore Hbad). reflexivity.
Qed.

(** An author that is present but is no object (JSON [null], a string)
    cannot be mapped: the comment, or the worklog entry, raises. *)
Theorem author_must_be_object (m : gmap string json) (author : json) :
  m !! "author" = Some author ->
  Value.is_dict author = false ->
  (forall record, processed_comment (JDict m) <> Ret record)
  /\ (forall record, worklog_entry (JDict m) <> Ret record)
  /\ Value.get author "displayName" (JStr "Unknown") = Raise AttributeError.
Proof.
  intros Ha Hd.
  assert (Hget : Value.get author "displayName" (JStr "Unknown") = Raise AttributeError)
    by (destruct author; try reflexivity; discriminate).
  split_and!; [| |exact Hget].
  - intros record H. unfold Comments.processed_comment in H.
    cbn [Value.get] in H. bind_inv H.
    rewrite Ha in Hx3. injection Hx3 as <-. congruence.
  - intros record H. unfold Worklog.worklog_entry in H.
    cbn [Value.get] in H. bind_inv H.
    rewrite Ha in Hx6. injection Hx6 as <-. congruence.
Qed.

(** [get_worklogs] makes one request and maps every entry of
    ["worklogs"], in order and without a limit; a response without the key
    gives the empty list. *)
Theorem worklogs_all_mapped (jira : jira_client) (issue_key : string)
    (response : gmap string json) (entries : list json)
    (out : list (gmap string json)) :
  issue_get_worklog jira issue_key = Ret (JDict response) ->
  (response !! "worklogs" = None /\ entries = [])
  \/ response !! "worklogs" = Some (JList entries) ->
  fst (Worklog.get_worklogs _clean_text parse_date str jira issue_key)
    = [Call_issue_get_worklog issue_key]
  /\ (snd (Worklog.get_worklogs _clean_text parse_date str jira issue_key) = Ret out
      <-> Forall2 (fun entry record => worklog_entry entry = Ret record) entries out).
Proof.
  intros Hresp Hentries. rewrite <- for_each_ret.
  unfold Worklog.get_worklogs, reraise_wrapped, request, lift.
  rewrite Hresp. cbn [mbind io_bind fst snd Value.is_dict negb Value.get].
  split; [reflexivity|].
  assert (Hiter : (match response !! "worklogs" with
                   | Some x => Ret x
                   | None => Ret (JList [])
                   end ≫= Value.iterate) = Ret entries).
  { destruct Hentries as [[-> ->] | ->]; reflexivity. }
  cbn [mbind result_bind] in Hiter |- *.
  destruct (response !! "worklogs") as [w|] eqn:Hw;
    cbn [mbind result_bind] in Hiter |- *; rewrite Hiter;
    unfold try_except; cbn [mbind result_bind];
    (destruct (for_each _ entries) as [records|e]; split; congruence).
Qed.

End ListingFurther.

Section ListingFurtherExamples.

Lemma one_bad_comment_fails_listing_witness :
  Comments.get_issue_comments Fixture.clean_text Fixture.parse_date Fixture.str
    Sample.jira_with_orphan "TEST-123" 50
  = ([Call_issue_get_comments "TEST-123"], Raise (Exception AttributeError)).
Proof.
  eapply (one_bad_comment_fails_listing Fixture.clean_text Fixture.parse_date
            Fixture.str Sample.jira_with_orphan "TEST-123" 50 _
            [Fixture.comment "10001" "First comment" "John Doe"]
            [Fixture.comment "10003" "Third comment" "Bob Johnson"]
            (JDict Sample.orphan_comment) AttributeError).
  - reflexivity.
  - vm_compute; reflexivity.
  - cbn; lia.
  - constructor; [|constructor].
    exists (Fixture.comment_record "10001" "First comment" "John Doe").
    vm_compute; reflexivity.
  - vm_compute; reflexivity.
Defined.

Lemma author_must_be_object_witness :
  (forall record,
      Comments.processed_comment Fixture.clean_text Fixture.parse_date Fixture.str
        (JDict Sample.orphan_comment) <> Ret record)
  /\ Value.get JNull "displayName" (JStr "Unknown") = Raise AttributeError.
Proof.
  assert (Ha : Sample.orphan_comment !! "author" = Some JNull)
    by (vm_compute; reflexivity).
  destruct (author_must_be_object Fixture.clean_text Fixture.parse_date
              Fixture.str Sample.orphan_comment JNull Ha eq_refl)
    as (Hcomment & _ & Hget).
  split; assumption.
Defined.

Lemma worklogs_all_mapped_witness :
  fst (Worklog.get_worklogs Fixture.clean_text Fixture.parse_date Fixture.str
         Fixture.jira "TEST-123") = [Call_issue_get_worklog "TEST-123"]
  /\ snd (Worklog.get_worklogs Fixture.clean_text Fixture.parse_date Fixture.str
            Fixture.jira "TEST-123") = Ret [].
Proof.
  destruct (worklogs_all_mapped Fixture.clean_text Fixture.parse_date Fixture.str
              Fixture.jira "TEST-123" ∅ [] [] eq_refl
              (or_introl (conj (lookup_empty _) eq_refl)))
    as [Hcalls Hout].
  split; [exact Hcalls | apply Hout; constructor].
Defined.

End ListingFurtherExamples.

(** ** Posting a comment: failures and the converter *)

Section AddCommentFurther.
Context {date : Type}.
Variable _clean_text : json -> result json.
Variable parse_date : json -> result date.
Variable str : date -> string.
Variable force_internal_comments : bool.

(** The comment is sent before the answer is looked at: when the request
    that [add_comment] makes fails, or is answered with something that is
    no object, [add_comment] has made that one request and raises
    [Exception], from the client's error or from a [TypeError]. *)
Theorem add_comment_fails_after_request
    (markdown_to_jira : string -> result string) (jira : jira_client)
    (issue_key comment : string) (visibility : option string)
    (answer : result json) :
  (if Comments.should_be_internal force_internal_comments visibility
   then post jira (resource_url jira "issue" ++ "/" ++ issue_key ++ "/comment")
          (Comments.comment_data
             (Comments._markdown_to_jira markdown_to_jira comment))
   else issue_add_comment jira issue_key
          (Comments._markdown_to_jira markdown_to_jira comment))
  = answer ->
  match answer with
  | Ret v => Value.is_dict v = false
  | Raise _ => True
  end ->
  Comments.add_comment _clean_text parse_date str markdown_to_jira
    force_internal_comments jira issue_key comment visibility
  = ([if Comments.should_be_internal force_internal_comments visibility
      then Call_post
             (resource_url jira "issue" ++ "/" ++ issue_key ++ "/comment")
             (Comments.comment_data
                (Comments._markdown_to_jira markdown_to_jira comment))
      else Call_issue_add_comment issue_key
             (Comments._markdown_to_jira markdown_to_jira comment)],
     Raise (Exception match answer with
                      | Ret _ => TypeError
                      | Raise e => e
                      end)).
Proof.
  intros Hanswer Hbad. unfold Comments.add_comment.
  destruct (Comments.should_be_internal _ _);
    unfold reraise_wrapped, request, lift; rewrite Hanswer;
    (destruct answer as [v|e];
     [cbn [mbind io_bind fst snd]; unfold Comments.created_comment;
      rewrite Hbad; reflexivity
     |reflexivity]).
Qed.

(** A converter that fails on the comment costs nothing but the
    conversion: the call goes as it would with a converter that leaves the
    text as it is. *)
Theorem converter_failure_sends_markdown
    (markdown_to_jira : string -> result string) (jira : jira_client)
    (issue_key comment : string) (visibility : option string) (e : exn) :
  markdown_to_jira comment = Raise e ->
  Comments.add_comment _clean_text parse_date str markdown_to_jira
    force_internal_comments jira issue_key comment visibility
  = Comments.add_comment _clean_text parse_date str (fun text => Ret text)
      force_internal_comments jira issue_key comment visibility.
Proof.
  intros He. unfold Comments.add_comment.
  replace (Comments._markdown_to_jira markdown_to_jira comment)
    with (Comments._markdown_to_jira (fun text => Ret text) comment);
    [reflexivity|].
  unfold Comments._markdown_to_jira. rewrite He.
  destruct (String.eqb comment ""); reflexivity.
Qed.

(** Every record handed out has the full set of keys of its kind, whatever
    the answer lacked: five for a listed comment, four (no ["updated"]) for
    a created one, eight for a worklog entry. *)
Theorem records_have_all_keys :
  (forall comment record,
      Comments.processed_comment _clean_text parse_date str comment = Ret record ->
      dom record = ({[ "id"; "body"; "created"; "updated"; "author" ]} : gset string))
  /\ (forall response record,
      Comments.created_comment _clean_text parse_date str response = Ret record ->
      dom record = ({[ "id"; "body"; "created"; "author" ]} : gset string))
  /\ (forall worklog record,
      Worklog.worklog_entry _clean_text parse_date str worklog = Ret record ->
      dom record = ({[ "id"; "comment"; "created"; "updated"; "started";
                       "timeSpent"; "timeSpentSeconds"; "author" ]} : gset string)).
Proof.
  split_and!.
  - intros comment record H. unfold Comments.processed_comment in H.
    bind_inv H. injection H as <-.
    now rewrite !dom_insert_L, dom_singleton_L.
  - intros response record H. unfold Comments.created_comment in H.
    destruct (negb _); [discriminate|].
    bind_inv H. injection H as <-.
    now rewrite !dom_insert_L, dom_singleton_L.
  - intros worklog record H. unfold Worklog.worklog_entry in H.
    bind_inv H. injection H as <-.
    now rewrite !dom_insert_L, dom_singleton_L.
Qed.

End AddCommentFurther.

Section AddCommentFurtherExamples.

Lemma add_comment_fails_after_request_witness :
  Comments.add_comment Fixture.clean_text Fixture.parse_date Fixture.str
    Fixture.markdown_to_jira false Sample.jira_refusing_comments "TEST-123"
    "A comment" (Some "public")
  = ([Call_issue_add_comment "TEST-123" "*This* is _Jira_ formatted"],
     Raise (Exception RequestException))
  /\ Comments.add_comment Fixture.clean_text Fixture.parse_date Fixture.str
       Fixture.markdown_to_jira false Sample.jira_with_orphan "TEST-123"
       "A comment" None
     = ([Call_issue_add_comment "TEST-123" "*This* is _Jira_ formatted"],
        Raise (Exception TypeError)).
Proof.
  split.
  - apply (add_comment_fails_after_request Fixture.clean_text Fixture.parse_date
             Fixture.str false Fixture.markdown_to_jira
             Sample.jira_refusing_comments "TEST-123" "A comment"
             (Some "public") (Raise RequestException)).
    + reflexivity.
    + exact I.
  - apply (add_comment_fails_after_request Fixture.clean_text Fixture.parse_date
             Fixture.str false Fixture.markdown_to_jira Sample.jira_with_orphan
             "TEST-123" "A comment" None (Ret JNull)).
    + reflexivity.
    + reflexivity.
Defined.

(** The same client takes an internal comment: only the request that is
    made counts. *)
Example internal_comment_accepted :
  snd (Comments.add_comment Fixture.clean_text Fixture.parse_date Fixture.str
         Fixture.markdown_to_jira false Sample.jira_refusing_comments "TEST-123"
         "A comment" (Some "internal"))
  = Ret {[ "id" := JNull; "body" := JStr ""; "created" := JStr "None";
           "author" := JStr "Unknown" ]}.
Proof. vm_compute. reflexivity. Qed.

Lemma converter_failure_sends_markdown_witness :
  Comments.add_comment Fixture.clean_text Fixture.parse_date Fixture.str
    Sample.failing_markdown_to_jira false Fixture.jira "TEST-123"
    "**bold**" None
  = Comments.add_comment Fixture.clean_text Fixture.parse_date Fixture.str
      (fun text => Ret text) false Fixture.jira "TEST-123" "**bold**" None.
Proof.
  apply (converter_failure_sends_markdown Fixture.clean_text Fixture.parse_date
           Fixture.str false Sample.failing_markdown_to_jira Fixture.jira
           "TEST-123" "**bold**" None ValueError).
  reflexivity.
Defined.

End AddCommentFurtherExamples.

(** ** The worklog models *)

Section WorklogModelsFurther.
Context {JiraWorklog : Type}.
Variable from_api_response : json -> result JiraWorklog.
Variable worklog : string -> result json.

(** A failure of the client never leaves [get_worklog]: it answers with an
    empty listing, of which [get_worklog_models] makes no model. *)
Theorem worklog_failure_gives_no_models (issue_key : string) (e : exn) :
  worklog issue_key = Raise e ->
  WorklogModels.get_worklog worklog issue_key
    = Ret (JDict {[ "worklogs" := JList [] ]})
  /\ WorklogModels.get_worklog_models from_api_response worklog issue_key = Ret [].
Proof.
  intros He. unfold WorklogModels.get_worklog_models, WorklogModels.get_worklog.
  rewrite He. cbn [try_except]. split; [reflexivity|].
  cbn [mbind result_bind Value.contains Value.getitem].
  rewrite lookup_singleton_eq.
  rewrite bool_decide_eq_true_2 by eauto. reflexivity.
Qed.

(** A listing the client did return is mapped entry by entry, in order;
    the constructor's error comes out as it is, with no wrapping. *)
Theorem worklog_models_of_listing (issue_key : string)
    (response : gmap string json) (entries : list json) :
  worklog issue_key = Ret (JDict response) ->
  response !! "worklogs" = Some (JList entries) ->
  WorklogModels.get_worklog_models from_api_response worklog issue_key
  = for_each from_api_response entries.
Proof.
  intros Hresp Hentries.
  unfold WorklogModels.get_worklog_models, WorklogModels.get_worklog.
  rewrite Hresp.
  cbn [try_except mbind result_bind Value.contains Value.getitem].
  rewrite Hentries. rewrite bool_decide_eq_true_2 by eauto.
  cbn [mbind result_bind]. destruct entries; reflexivity.
Qed.

End WorklogModelsFurther.

Section WorklogModelsExamples.

Lemma worklog_failure_gives_no_models_witness :
  WorklogModels.get_worklog (fun _ => Raise AttributeError) "TEST-123"
    = Ret (JDict {[ "worklogs" := JList [] ]})
  /\ WorklogModels.get_worklog_models (fun entry => Ret entry)
       (fun _ => Raise AttributeError) "TEST-123" = Ret [].
Proof.
  apply (worklog_failure_gives_no_models (fun entry : json => Ret entry)
           (fun _ => Raise AttributeError) "TEST-123" AttributeError).
  reflexivity.
Defined.

Lemma worklog_models_of_listing_witness :
  WorklogModels.get_worklog_models
    (fun entry => if Value.is_dict entry then Ret entry else Raise TypeError)
    (fun _ => Ret (JDict {[ "worklogs" := JList [JDict Fixture.bare_worklog; JNull] ]}))
    "TEST-123"
  = Raise TypeError.
Proof.
  rewrite (worklog_models_of_listing _ _ "TEST-123"
             {[ "worklogs" := JList [JDict Fixture.bare_worklog; JNull] ]}
             [JDict Fixture.bare_worklog; JNull] eq_refl
             (lookup_singleton_eq _ _)).
  reflexivity.
Defined.

End WorklogModelsExamples.

(** ** Confluence pages: listings, bodies and the write operations *)

Section PagesFurther.
Context {ConfluencePage : Type}.
Variable from_api_response : json -> Pages.model_kwargs -> result ConfluencePage.
Variable process_html_content : json -> json -> result (json * json).
Variable markdown_to_confluence_storage : string -> result string.
Variable config_url : string.
Variable config_is_cloud : bool.
Variable confluence : Pages.confluence_client.

Local Abbreviation get_page_content :=
  (Pages.get_page_content from_api_response process_html_content config_url
     config_is_cloud confluence).
Local Abbreviation get_page_ancestors :=
  (Pages.get_page_ancestors from_api_response config_url confluence).
Local Abbreviation get_page_by_title :=
  (Pages.get_page_by_title from_api_response process_html_content config_url
     config_is_cloud confluence).
Local Abbreviation get_page_children :=
  (Pages.get_page_children from_api_response process_html_content config_url
     confluence).
Local Abbreviation get_space_pages :=
  (Pages.get_space_pages from_api_response process_html_content config_url
     config_is_cloud confluence).
Local Abbreviation create_page :=
  (Pages.create_page from_api_response process_html_content
     markdown_to_confluence_storage config_url config_is_cloud confluence).
Local Abbreviation update_page :=
  (Pages.update_page from_api_response process_html_content
     markdown_to_confluence_storage config_url config_is_cloud confluence).

(** A loop that returns has returned on each of its items. *)
Lemma for_each_ret_in {A B} (f : A -> result B) xs ys x :
  for_each f xs = Ret ys -> In x xs -> exists y, f x = Ret y.
Proof.
  revert ys. induction xs as [|x' xs IH]; intros ys H Hin; [destruct Hin|].
  cbn [for_each] in H. bind_inv H.
  destruct Hin as [<- | Hin]; eauto.
Qed.

(** A loop that raises raises what one of its items raised. *)
Lemma for_each_raise_in {A B} (f : A -> result B) xs e :
  for_each f xs = Raise e -> exists x, In x xs /\ f x = Raise e.
Proof.
  induction xs as [|x xs IH]; [discriminate|]. cbn [for_each]. intros H.
  destruct (f x) as [y|e1] eqn:Hx; cbn [mbind result_bind] in H.
  - destruct (for_each f xs) as [ys|e2]; cbn [mbind result_bind] in H;
      [discriminate|].
    destruct (IH H) as (x' & Hin & Hx'). exists x'. split; [now right | exact Hx'].
  - injection H as ->. exists x. split; [now left | exact Hx].
Qed.

(** A child is modelled from its own payload, with the markdown of its
    body, if it has one, as the content; [is_cloud] is not passed. *)
Local Abbreviation child_model convert space_key child page :=
  (exists override,
      Pages.child_content_override process_html_content child space_key convert
        = Ret override
      /\ from_api_response child
           {| Pages.base_url := config_url;
              Pages.include_body := true;
              Pages.content_override := override;
              Pages.content_format :=
                Some (if convert : bool then "markdown" else "storage");
              Pages.is_cloud := None |} = Ret page).

(** The children of a page come all or not at all.  When the space key of
    the first child can be read and every child can be modelled, the outcome
    is the list of the models in the order of the answer; when the space key
    cannot be read, or one child cannot be modelled, it is the empty list;
    and a list that is not empty is always the full list of models. *)
Theorem children_all_or_nothing (page_id : json) (start limit : Z)
    (expand : string) (convert : bool) (results : json) (children : list json) :
  Pages.get_page_child_by_type confluence page_id "page" start limit expand
    = Ret results ->
  results = JList children
  \/ (exists m, results = JDict m /\ m !! "results" = Some (JList children)) ->
  (forall space_key pages,
      Pages.first_space_key (JList children) = Ret space_key ->
      Forall2 (fun child page => child_model convert space_key child page)
        children pages ->
      get_page_children page_id start limit expand convert = Ret pages)
  /\ ((exists e, Pages.first_space_key (JList children) = Raise e)
      \/ (exists space_key child,
             Pages.first_space_key (JList children) = Ret space_key
             /\ In child children
             /\ forall page, ~ child_model convert space_key child page) ->
      get_page_children page_id start limit expand convert = Ret [])
  /\ (forall pages,
      get_page_children page_id start limit expand convert = Ret pages ->
      pages <> [] ->
      exists space_key,
        Pages.first_space_key (JList children) = Ret space_key
        /\ Forall2 (fun child page => child_model convert space_key child page)
             children pages).
Proof.
  intros Hres Hshape. unfold Pages.get_page_children. rewrite Hres.
  cbn [mbind result_bind].
  assert (Hchild : (paged ← Pages.has_results results;
                    if paged : bool then Value.get results "results" (JList [])
                    else Ret (if Value.truthy results then results else JList []))
                   = Ret (JList children)).
  { destruct Hshape as [-> | (m & -> & Hm)].
    - destruct children; reflexivity.
    - cbn [Pages.has_results Value.is_dict Value.contains mbind result_bind].
      rewrite Hm, bool_decide_eq_true_2 by eauto.
      cbn [Value.get]. now rewrite Hm. }
  destruct (Pages.has_results results) as [paged|e];
    cbn [mbind result_bind] in Hchild |- *; [|discriminate].
  rewrite Hchild. cbn [mbind result_bind]. clear Hchild Hshape Hres.
  destruct (Pages.first_space_key (JList children)) as [key|e];
    cbn [mbind result_bind Value.iterate try_except].
  - split_and!.
    + intros space_key pages [= <-] Hpages.
      match goal with
      | |- context [for_each ?f children] =>
          assert (Hloop : for_each f children = Ret pages)
      end.
      { apply for_each_ret. eapply Forall2_impl; [exact Hpages|].
        intros child page (override & Ho & Hm). cbn beta.
        rewrite Ho. exact Hm. }
      now rewrite Hloop.
    + intros [[e He] | (space_key & child & [= <-] & Hin & Hbad)];
        [discriminate|].
      destruct (for_each _ children) as [models|e] eqn:Hloop; [|reflexivity].
      destruct (for_each_ret_in _ _ _ _ Hloop Hin) as [page Hpage].
      cbn beta in Hpage. bind_inv Hpage. destruct (Hbad page). eauto.
    + intros pages Hpages Hne. exists key. split; [reflexivity|].
      destruct (for_each _ children) as [models|e] eqn:Hloop;
        injection Hpages as <-; [|now destruct Hne].
      apply for_each_ret in Hloop.
      eapply Forall2_impl; [exact Hloop|].
      intros child page H. cbn beta in H. bind_inv H. eauto.
  - split_and!.
    + discriminate.
    + reflexivity.
    + intros pages [= <-] Hne. now destruct Hne.
Qed.

(** What [get_page_ancestors] passes to the model constructor. *)
Local Abbreviation ancestor_model ancestor page :=
  (from_api_response ancestor
     {| Pages.base_url := config_url;
        Pages.include_body := false;
        Pages.content_override := None;
        Pages.content_format := None;
        Pages.is_cloud := None |} = Ret page).

(** The ancestors come all or not at all.  When every ancestor can be
    modelled the outcome is the list of the models in the order of the
    answer; when the constructor raises on one of them, and raises no
    [HTTPError] on any, it is the empty list; and a list that is not empty
    is always the full list of models. *)
Theorem ancestors_all_or_nothing (page_id : json) (ancestors : list json) :
  Pages.client_get_page_ancestors confluence page_id = Ret (JList ancestors) ->
  (forall pages,
      Forall2 (fun ancestor page => ancestor_model ancestor page) ancestors pages ->
      get_page_ancestors page_id = Ret pages)
  /\ (forall ancestor,
      In ancestor ancestors ->
      (forall page, ~ ancestor_model ancestor page) ->
      (forall other kwargs status_code,
          from_api_response other kwargs <> Raise (HTTPError status_code)) ->
      get_page_ancestors page_id = Ret [])
  /\ (forall pages,
      get_page_ancestors page_id = Ret pages ->
      pages <> [] ->
      Forall2 (fun ancestor page => ancestor_model ancestor page) ancestors pages).
Proof.
  intros Hres. unfold Pages.get_page_ancestors. rewrite Hres.
  cbn [mbind result_bind Value.iterate]. split_and!.
  - intros pages Hpages. apply for_each_ret in Hpages. now rewrite Hpages.
  - intros ancestor Hin Hbad Hmodel.
    destruct (for_each _ ancestors) as [pages|e] eqn:Hloop; cbn [try_except].
    + destruct (for_each_ret_in _ _ _ _ Hloop Hin) as [page Hpage].
      now destruct (Hbad page).
    + destruct (for_each_raise_in _ _ _ Hloop) as (other & _ & Hother).
      destruct e; try reflexivity. now apply Hmodel in Hother.
  - intros pages Hpages Hne.
    destruct (for_each _ ancestors) as [models|e] eqn:Hloop;
      cbn [try_except] in Hpages.
    + injection Hpages as <-. now apply for_each_ret.
    + destruct e; try (injection Hpages as <-; now destruct Hne).
      unfold Pages.on_http_error in Hpages.
      destruct status_code as [code|]; [|discriminate].
      destruct (_ || _); discriminate.
Qed.

(** A page that came without ["body"] is an error, not an empty page:
    [get_page_content] raises [Exception] on it, and one such page anywhere
    in a space listing makes [get_space_pages] raise. *)
Theorem page_without_body_raises (m : gmap string json) :
  m !! "body" = None ->
  (forall page_id convert,
      Pages.get_page_by_id confluence page_id
        "body.storage,version,space,children.attachment" = Ret (JDict m) ->
      exists e, get_page_content page_id convert = Raise (Exception e)
                /\ (e = KeyError \/ e = AttributeError))
  /\ (forall space_key start limit convert pages,
      Pages.get_all_pages_from_space confluence space_key start limit
        "body.storage" = Ret (JList pages) ->
      In (JDict m) pages ->
      exists e, get_space_pages space_key start limit convert = Raise e).
Proof.
  intros Hbody.
  assert (Hvalue : Pages.storage_value (JDict m) = Raise KeyError).
  { unfold Pages.storage_value. cbn [Value.getitem]. now rewrite Hbody. }
  split.
  - intros page_id convert Hpage. unfold Pages.get_page_content.
    rewrite Hpage. cbn [mbind result_bind Value.get].
    destruct (match m !! "space" with Some x => x | None => JDict ∅ end)
      as [| | | | |space]; cbn [Value.get mbind result_bind try_except]; eauto.
    rewrite Hvalue. cbn [mbind result_bind try_except]. eauto.
  - intros space_key start limit convert pages Hpages Hin.
    unfold Pages.get_space_pages. rewrite Hpages.
    cbn [mbind result_bind Value.iterate].
    destruct (for_each _ pages) as [models|e] eqn:Hloop; [|eauto].
    destruct (for_each_ret_in _ _ _ _ Hloop Hin) as [model Hmodel].
    cbn beta in Hmodel. rewrite Hvalue in Hmodel. discriminate.
Qed.

(** An answer to the create request that names no page id makes
    [create_page] raise: the page may exist, but nothing is read back. *)
Theorem create_page_requires_id (space_key title body : string)
    (parent_id : option string) (is_markdown : bool) (storage : string)
    (m : gmap string json) :
  Pages.storage_body markdown_to_confluence_storage body is_markdown = Ret storage ->
  Pages.client_create_page confluence space_key title storage parent_id "storage"
    = Ret (JDict m) ->
  match m !! "id" with
  | Some page_id => Value.truthy page_id = false
  | None => True
  end ->
  create_page space_key title body parent_id is_markdown
  = Raise (Exception ValueError).
Proof.
  intros Hstorage Hresp Hid. unfold Pages.create_page.
  rewrite Hstorage. cbn [mbind result_bind]. rewrite Hresp.
  cbn [mbind result_bind Value.get].
  destruct (m !! "id") as [page_id|]; [rewrite Hid|]; reflexivity.
Qed.

(** What a write hands back is read from the server again, as markdown,
    whatever format the body was written in: [create_page] and
    [update_page] end as [get_page_content] does on the page id, with its
    errors wrapped in [Exception]. *)
Theorem write_then_read_back :
  (forall space_key title body parent_id is_markdown storage response page_id,
      Pages.storage_body markdown_to_confluence_storage body is_markdown
        = Ret storage ->
      Pages.client_create_page confluence space_key title storage parent_id
        "storage" = Ret response ->
      Value.get response "id" JNull = Ret page_id ->
      Value.truthy page_id = true ->
      create_page space_key title body parent_id is_markdown
      = try_except (get_page_content page_id true) (fun e => Raise (Exception e)))
  /\ (forall page_id title body is_minor_edit version_comment is_markdown
             parent_id storage response,
      Pages.storage_body markdown_to_confluence_storage body is_markdown
        = Ret storage ->
      Pages.client_update_page confluence page_id title storage is_minor_edit
        version_comment
        match parent_id with
        | Some "" | None => None
        | Some parent => Some parent
        end = Ret response ->
      update_page page_id title body is_minor_edit version_comment is_markdown
        parent_id
      = try_except (get_page_content page_id true) (fun e => Raise (Exception e))).
Proof.
  split.
  - intros space_key title body parent_id is_markdown storage response page_id
      Hstorage Hresp Hid Htrue.
    unfold Pages.create_page. rewrite Hstorage. cbn [mbind result_bind].
    rewrite Hresp. cbn [mbind result_bind]. rewrite Hid.
    cbn [mbind result_bind]. now rewrite Htrue.
  - intros page_id title body is_minor_edit version_comment is_markdown
      parent_id storage response Hstorage Hresp.
    unfold Pages.update_page. rewrite Hstorage. cbn [mbind result_bind].
    assert (Hparent : match parent_id with
                      | Some p => if String.eqb p "" then None else Some p
                      | None => None
                      end
                      = match parent_id with
                        | Some "" | None => None
                        | Some parent => Some parent
                        end).
    { destruct parent_id as [[|c p]|]; reflexivity. }
    rewrite Hparent, Hresp. reflexivity.
Qed.

(** A title is looked up only in a space that the listing of the first 500
    spaces names: for any other space key the answer is [None], whatever
    the page lookup would have given. *)
Theorem page_by_title_needs_listed_space (space_key title : string)
    (convert : bool) (listing : json) (spaces : list json) :
  Pages.get_all_spaces confluence 0 500 = Ret listing ->
  listing = JList spaces
  \/ (exists m, listing = JDict m /\ m !! "results" = Some (JList spaces)) ->
  Forall (fun space => Value.getitem space "key" <> Ret (JStr space_key)) spaces ->
  get_page_by_title space_key title convert = Ret None.
Proof.
  intros Hlisting Hshape Hkeys. unfold Pages.get_page_by_title.
  rewrite Hlisting. cbn [mbind result_bind].
  assert (Hspaces : (paged ← Pages.has_results listing;
                     if paged : bool
                     then Value.getitem listing "results" ≫= Value.iterate
                     else Value.iterate listing)
                    = Ret spaces).
  { destruct Hshape as [-> | (m & -> & Hm)].
    - reflexivity.
    - cbn [Pages.has_results Value.is_dict Value.contains mbind result_bind].
      rewrite Hm, bool_decide_eq_true_2 by eauto.
      cbn [Value.getitem]. now rewrite Hm. }
  destruct (Pages.has_results listing) as [paged|e];
    cbn [mbind result_bind] in Hspaces |- *; [|discriminate].
  rewrite Hspaces. cbn [mbind result_bind].
  destruct (for_each _ spaces) as [space_keys|e] eqn:Hloop;
    cbn [mbind result_bind try_except]; [|now destruct e].
  assert (Hnone : existsb (fun k => Value.eq_str k space_key) space_keys = false).
  { apply for_each_ret in Hloop. clear Hshape Hspaces.
    induction Hloop as [|space k spaces' keys' Hk _ IH]; [reflexivity|].
    inversion Hkeys as [|? ? Hspace Hrest]; subst.
    cbn [existsb]. rewrite (IH Hrest), orb_false_r.
    destruct k as [| | |s| |]; try reflexivity.
    cbn [Value.eq_str]. destruct (String.eqb_spec s space_key) as [->|]; [|reflexivity].
    now destruct Hspace. }
  rewrite Hnone. reflexivity.
Qed.

(** The page [get_space_pages] hands to the model constructor. *)
Lemma with_space_dict (m : gmap string json) (space_key : string) :
  Pages.with_space (JDict m) space_key
  = Ret (JDict match m !! "space" with
               | Some _ => m
               | None => <[ "space" := JDict {[ "key" := JStr space_key;
                                                "name" := JStr space_key ]} ]> m
               end).
Proof.
  unfold Pages.with_space. cbn [Value.contains mbind result_bind].
  destruct (m !! "space") as [space|] eqn:Hspace.
  - now rewrite bool_decide_eq_true_2 by eauto.
  - now rewrite bool_decide_eq_false_2 by (intros [? ?]; discriminate).
Qed.

(** [get_space_pages] returns exactly when every page of the listing is an
    object with a body that can be processed and modelled, and then each
    model is built from the page with a ["space"] entry: the page's own
    when it has one, the key and name of the space asked for otherwise; the
    other entries of the page are passed on as they are. *)
Theorem space_pages_built_with_space (space_key : string) (start limit : Z)
    (convert : bool) (pages : list json) (models : list ConfluencePage) :
  Pages.get_all_pages_from_space confluence space_key start limit "body.storage"
    = Ret (JList pages) ->
  get_space_pages space_key start limit convert = Ret models
  <-> Forall2 (fun page model =>
                 exists m content html markdown,
                   page = JDict m
                   /\ Pages.storage_value page = Ret content
                   /\ process_html_content content (JStr space_key)
                      = Ret (html, markdown)
                   /\ from_api_response
                        (JDict match m !! "space" with
                               | Some _ => m
                               | None =>
                                   <[ "space" :=
                                        JDict {[ "key" := JStr space_key;
                                                 "name" := JStr space_key ]} ]> m
                               end)
                        {| Pages.base_url := config_url;
                           Pages.include_body := true;
                           Pages.content_override :=
                             Some (if convert then markdown else html);
                           Pages.content_format := Some (Pages.format_of convert);
                           Pages.is_cloud := Some config_is_cloud |}
                      = Ret model)
       pages models.
Proof.
  intros Hpages. unfold Pages.get_space_pages. rewrite Hpages.
  cbn [mbind result_bind Value.iterate]. rewrite for_each_ret.
  split; intros Hall; (eapply Forall2_impl; [exact Hall|]);
    intros page model H; cbn beta in H |- *.
  - apply bind_ret_inv in H as (content & Hcontent & H).
    apply bind_ret_inv in H as ([html markdown] & Hprocess & H).
    apply bind_ret_inv in H as (page' & Hspace & H).
    destruct page as [| | | | |m];
      try (unfold Pages.storage_value in Hcontent; discriminate Hcontent).
    rewrite with_space_dict in Hspace. injection Hspace as <-.
    exists m, content, html, markdown. split_and!; auto.
  - destruct H as (m & content & html & markdown & -> & Hcontent & Hprocess & H).
    rewrite Hcontent. cbn [mbind result_bind]. rewrite Hprocess.
    cbn [mbind result_bind]. rewrite with_space_dict.
    cbn [mbind result_bind]. exact H.
Qed.

End PagesFurther.

Section PagesFurtherExamples.

Local Abbreviation wiki := "https://example.atlassian.net/wiki".

Lemma children_all_or_nothing_witness :
  Pages.get_page_children Sample.from_api_response Fixture.process_html_content
    wiki Sample.space_confluence (JStr "123") 0 25 "body.storage" true
  = Ret [JDict Sample.page_two; JDict Sample.page_one]
  /\ Pages.get_page_children Sample.from_api_response
       Fixture.process_html_content wiki Sample.confluence (JStr "123") 0 25
       "version" true
     = Ret [].
Proof.
  split.
  - destruct (children_all_or_nothing Sample.from_api_response
                Fixture.process_html_content wiki Sample.space_confluence
                (JStr "123") 0 25 "body.storage" true
                (JDict {[ "results" := JList [JDict Sample.page_two;
                                              JDict Sample.page_one] ]})
                [JDict Sample.page_two; JDict Sample.page_one] eq_refl)
      as (Hall & _ & _).
    + right. eexists. split; [reflexivity | apply lookup_singleton_eq].
    + apply (Hall (JStr "OPS")); [vm_compute; reflexivity|].
      constructor; [|constructor; [|constructor]].
      * exists (Some (JStr "<p>Two</p>")). split; vm_compute; reflexivity.
      * exists (Some (JStr "<p>One</p>")). split; vm_compute; reflexivity.
  - destruct (children_all_or_nothing Sample.from_api_response
                Fixture.process_html_content wiki Sample.confluence
                (JStr "123") 0 25 "version" true
                (JList [JDict {[ "id" := JStr "7" ]}; JNum 8])
                [JDict {[ "id" := JStr "7" ]}; JNum 8] eq_refl)
      as (_ & Hnone & _).
    + left. reflexivity.
    + apply Hnone. right. exists (JStr ""), (JNum 8). split_and!.
      * vm_compute; reflexivity.
      * right. left. reflexivity.
      * intros page (override & Ho & _). discriminate Ho.
Defined.

Lemma ancestors_all_or_nothing_witness :
  Pages.get_page_ancestors Sample.from_api_response wiki Sample.confluence
    (JStr "123")
  = Ret [JDict {[ "id" := JStr "2" ]}; JDict {[ "id" := JStr "1" ]}]
  /\ Pages.get_page_ancestors Sample.from_api_response wiki
       Sample.space_confluence (JStr "123")
     = Ret [].
Proof.
  split.
  - destruct (ancestors_all_or_nothing Sample.from_api_response wiki
                Sample.confluence (JStr "123")
                [JDict {[ "id" := JStr "2" ]}; JDict {[ "id" := JStr "1" ]}]
                eq_refl) as (Hall & _ & _).
    apply Hall. repeat constructor.
  - destruct (ancestors_all_or_nothing Sample.from_api_response wiki
                Sample.space_confluence (JStr "123")
                [JDict {[ "id" := JStr "2" ]}; JNull] eq_refl)
      as (_ & Hnone & _).
    apply (Hnone JNull).
    + right. left. reflexivity.
    + intros page Hpage. discriminate Hpage.
    + intros other kwargs status_code. unfold Sample.from_api_response.
      destruct (Value.is_dict other); discriminate.
Defined.

Lemma page_without_body_raises_witness :
  exists e,
    Pages.get_page_content Sample.from_api_response Fixture.process_html_content
      wiki true Sample.confluence (JStr "123") true = Raise (Exception e)
    /\ (e = KeyError \/ e = AttributeError).
Proof.
  assert (Hbody : Sample.page_without_body !! "body" = None)
    by (vm_compute; reflexivity).
  destruct (page_without_body_raises Sample.from_api_response
              Fixture.process_html_content wiki true Sample.confluence
              Sample.page_without_body Hbody) as [Hcontent _].
  apply Hcontent. reflexivity.
Defined.

Lemma create_page_requires_id_witness :
  Pages.create_page Sample.from_api_response Fixture.process_html_content
    Fixture.markdown_to_confluence_storage wiki true Sample.confluence
    "DEV" "Home" "# Welcome" None true
  = Raise (Exception ValueError).
Proof.
  apply (create_page_requires_id Sample.from_api_response
           Fixture.process_html_content Fixture.markdown_to_confluence_storage
           wiki true Sample.confluence "DEV" "Home" "# Welcome" None true
           "# Welcome" {[ "title" := JStr "Home" ]}).
  - reflexivity.
  - reflexivity.
  - rewrite lookup_singleton_ne by discriminate. exact I.
Defined.

Lemma page_by_title_needs_listed_space_witness :
  Pages.get_page_by_title Sample.from_api_response Fixture.process_html_content
    wiki true Sample.confluence "HR" "Home" true = Ret None.
Proof.
  apply (page_by_title_needs_listed_space Sample.from_api_response
           Fixture.process_html_content wiki true Sample.confluence "HR" "Home"
           true
           (JDict {[ "results" := JList [JDict {[ "key" := JStr "DEV" ]};
                                         JDict {[ "key" := JStr "OPS" ]}] ]})
           [JDict {[ "key" := JStr "DEV" ]}; JDict {[ "key" := JStr "OPS" ]}]).
  - reflexivity.
  - right. eexists. split; [reflexivity | apply lookup_singleton_eq].
  - repeat constructor; cbn [Value.getitem]; rewrite lookup_singleton_eq;
      discriminate.
Defined.

Lemma space_pages_built_with_space_witness :
  Pages.get_space_pages Sample.from_api_response Fixture.process_html_content
    wiki true Sample.space_confluence "DEV" 0 10 true
  = Ret [JDict Sample.page_one_in_dev; JDict Sample.page_two].
Proof.
  apply (space_pages_built_with_space Sample.from_api_response
           Fixture.process_html_content wiki true Sample.space_confluence
           "DEV" 0 10 true [JDict Sample.page_one; JDict Sample.page_two]
           [JDict Sample.page_one_in_dev; JDict Sample.page_two] eq_refl).
  constructor; [|constructor; [|constructor]].
  - exists Sample.page_one, (JStr "<p>One</p>"), (JStr "<p>One</p>"),
      (JStr "<p>One</p>").
    split_and!; vm_compute; reflexivity.
  - exists Sample.page_two, (JStr "<p>Two</p>"), (JStr "<p>Two</p>"),
      (JStr "<p>Two</p>").
    split_and!; vm_compute; reflexivity.
Defined.

End PagesFurtherExamples.
